(** * TREKKER-CORE-BOT: the session lifecycle manager

    A shallow embedding of the two session-processing scripts of the
    repository (src/unnamed/part_000, the variant that reads the identity from
    the stored session data, and src/unnamed/part_001, the variant that reads it
    from the live socket), of the index creation of src/setup.js, and of the
    submission endpoints.

    Conventions of the embedding:
    - the four MongoDB collections are lists of documents in store order
      ([find({}).toArray()] returns the list, [deleteOne] removes the first
      match, [insertOne] appends);
    - [activeBots], a JS [Map] from session id to socket, is a [gmap];
    - sockets are numbered by creation order; a socket keeps the variables
      its handlers closed over;
    - fields that hold identifiers are strings; the phone a record declares
      is kept as the JS value the request body gave, since the scripts call a
      string method on it;
    - every [async] function is a computation in the monad [M], which threads
      the world and carries JS exceptions; [try]/[catch] is [try_catch];
    - what the outside decides (which store calls are answered, whether the
      connection provider throws, which identity it confirms, which
      [connection.update] events arrive and when) is an input of the model;
    - timestamps ([new Date()]) and log lines are left out. *)

From stdpp Require Import base strings gmap list.
From Stdlib Require Import ZArith Ascii String.

Local Open Scope string_scope.
Local Open Scope list_scope.

(** ** JavaScript values and string helpers *)

Module Js.

(** The values a field taken from an untyped request body may hold. *)
Inductive JsVal :=
| JUndefined
| JNull
| JBool (b : bool)
| JNum (n : Z)
| JStr (s : string)
| JObject.

(** [!!v] *)
Definition truthy (v : JsVal) : bool :=
  match v with
  | JUndefined | JNull => false
  | JBool b => b
  | JNum n => negb (n =? 0)%Z
  | JStr s => negb (String.eqb s "")
  | JObject => true
  end.

(** [a || b] *)
Definition or_else (a b : JsVal) : JsVal := if truthy a then a else b.

(** [s.split(c)[0]]: the part of [s] before the first [c]. *)
Fixpoint split_head (c : ascii) (s : string) : string :=
  match s with
  | EmptyString => EmptyString
  | String a r => if Ascii.eqb a c then EmptyString else String a (split_head c r)
  end.

Definition nonempty (s : string) : bool := negb (String.eqb s "").

(** [x.toLowerCase()] on one ASCII character, enough for hexadecimal ids. *)
Definition lower_ascii (a : ascii) : ascii :=
  let n := nat_of_ascii a in
  if (65 <=? n)%nat && (n <=? 90)%nat then ascii_of_nat (n + 32) else a.

Fixpoint lower (s : string) : string :=
  match s with
  | EmptyString => EmptyString
  | String a r => String (lower_ascii a) (lower r)
  end.

Definition is_hex_digit (a : ascii) : bool :=
  let n := nat_of_ascii a in
  ((48 <=? n)%nat && (n <=? 57)%nat)
  || ((97 <=? n)%nat && (n <=? 102)%nat)
  || ((65 <=? n)%nat && (n <=? 70)%nat).

Fixpoint all_hex (s : string) : bool :=
  match s with
  | EmptyString => true
  | String a r => is_hex_digit a && all_hex r
  end.

End Js.
Import Js.

(** ** Documents and the world *)

(** The [_id] of a stored document: an [ObjectId] (held as its 24 lower-case
    hexadecimal digits) unless the inserted document brought its own. *)
Inductive DocId :=
| ObjectId (hex : string)
| PlainId (s : string).

Global Instance DocId_eq_dec : EqDecision DocId.
Proof. solve_decision. Defined.

(** [_id.toString()] *)
Definition id_toString (i : DocId) : string :=
  match i with ObjectId h => h | PlainId s => s end.

(** One entry of [processedHistoryMessages]: [key.remoteJid] when [key] and the
    field are there. *)
Record HistoryMessage := { key_remoteJid : option string }.

(** A document of [wasessions]. *)
Record Session := {
  _id : DocId;
  sessionId : string;
  phoneNumber : JsVal;
  processedHistoryMessages : list HistoryMessage;
  me_id : option string
}.

(** A document of [wavalidjid]; the two scripts disagree on the field name. *)
Record ValidDoc := { f_Jid : option string; f_jid : option string }.

(** A document of [expiredjid]. *)
Record ExpiredDoc := { e_phoneNumber : string; e_reason : string }.

(** A document of [runningbots]. *)
Record RunningDoc := { r_jid : string; r_sessionId : string; r_status : string }.

(** A socket made by the connection provider, with what its event handlers
    closed over: [sk_sessionId] is the handlers' [sessionId], [sk_remoteJid]
    their [remoteJid] (part_000 only; part_001 has no such variable and leaves
    it empty). [sk_user] is [sock.user?.id], the identity the provider
    confirms; [sk_ended] records [sock.end()]. *)
Record Sock := {
  sk_sessionId : string;
  sk_remoteJid : string;
  sk_user : option string;
  sk_ended : bool
}.

(** Observable actions, kept as a ghost trace. *)
Inductive Effect :=
| Sent (sock : nat) (jid text : string)
| AuthQuery (jid : string)
| SockCreated (sock : nat)
| SockEnd (sock : nat).

Record World := mkWorld {
  wasessions : list Session;
  wavalidjid : list ValidDoc;
  expiredjid : list ExpiredDoc;
  runningbots : list RunningDoc;
  sessionId_index : bool;   (* the unique index of setup.js on wasessions.sessionId *)
  faults : list bool;       (* the coming store calls: [true] rejects; none left: all answer *)
  activeBots : gmap string nat;
  socks : list Sock;
  trace : list Effect
}.

Definition set_wasessions (f : list Session → list Session) (w : World) : World :=
  mkWorld (f (wasessions w)) (wavalidjid w) (expiredjid w) (runningbots w)
          (sessionId_index w) (faults w) (activeBots w) (socks w) (trace w).

Definition set_expiredjid (f : list ExpiredDoc → list ExpiredDoc) (w : World) : World :=
  mkWorld (wasessions w) (wavalidjid w) (f (expiredjid w)) (runningbots w)
          (sessionId_index w) (faults w) (activeBots w) (socks w) (trace w).

Definition set_runningbots (f : list RunningDoc → list RunningDoc) (w : World) : World :=
  mkWorld (wasessions w) (wavalidjid w) (expiredjid w) (f (runningbots w))
          (sessionId_index w) (faults w) (activeBots w) (socks w) (trace w).

Definition set_faults (l : list bool) (w : World) : World :=
  mkWorld (wasessions w) (wavalidjid w) (expiredjid w) (runningbots w)
          (sessionId_index w) l (activeBots w) (socks w) (trace w).

Definition set_sessionId_index (b : bool) (w : World) : World :=
  mkWorld (wasessions w) (wavalidjid w) (expiredjid w) (runningbots w)
          b (faults w) (activeBots w) (socks w) (trace w).

Definition set_activeBots (f : gmap string nat → gmap string nat) (w : World) : World :=
  mkWorld (wasessions w) (wavalidjid w) (expiredjid w) (runningbots w)
          (sessionId_index w) (faults w) (f (activeBots w)) (socks w) (trace w).

Definition set_socks (f : list Sock → list Sock) (w : World) : World :=
  mkWorld (wasessions w) (wavalidjid w) (expiredjid w) (runningbots w)
          (sessionId_index w) (faults w) (activeBots w) (f (socks w)) (trace w).

Definition emit (e : Effect) (w : World) : World :=
  mkWorld (wasessions w) (wavalidjid w) (expiredjid w) (runningbots w)
          (sessionId_index w) (faults w) (activeBots w) (socks w) (trace w ++ [e]).

(** The identities the subscription check was made on, oldest first. *)
Definition auth_queries (w : World) : list string :=
  omap (λ e, match e with AuthQuery j => Some j | _ => None end) (trace w).

(** The subscription check is only ever made on an identity that a socket of
    the provider confirms. *)
Definition checks_confirmed_identity_only (w : World) : Prop :=
  ∀ jid, jid ∈ auth_queries w → ∃ n sk, socks w !! n = Some sk ∧ sk_user sk = Some jid.

(** ** The monad of [async] code: world passing with exceptions *)

Inductive Err :=
| TypeError
| StoreUnavailable
| DuplicateKey
| ProviderError.

Inductive Res (A : Type) :=
| Ok (a : A)
| Throw (e : Err).
Arguments Ok {A} a.
Arguments Throw {A} e.

Definition M (A : Type) : Type := World → Res A * World.

Definition ret {A} (a : A) : M A := λ w, (Ok a, w).
Definition throw {A} (e : Err) : M A := λ w, (Throw e, w).
Definition bind {A B} (m : M A) (k : A → M B) : M B :=
  λ w, match m w with
       | (Ok a, w') => k a w'
       | (Throw e, w') => (Throw e, w')
       end.
Definition try_catch {A} (m : M A) (h : Err → M A) : M A :=
  λ w, match m w with
       | (Ok a, w') => (Ok a, w')
       | (Throw e, w') => h e w'
       end.
Definition gets {A} (f : World → A) : M A := λ w, (Ok (f w), w).
Definition modify (f : World → World) : M unit := λ w, (Ok tt, f w).
Definition when (b : bool) (m : M unit) : M unit := if b then m else ret tt.

Declare Scope async_scope.
Delimit Scope async_scope with async.
Notation "'let*' x ':=' m 'in' k" := (bind m (λ x, k))
  (at level 10, x name, m at level 100, k at level 200,
   format "'[v' 'let*'  x  ':='  m  'in' '/' k ']'") : async_scope.
Notation "m ;;; k" := (bind m (λ _, k))
  (at level 100, k at level 200, right associativity,
   format "'[v' m  ;;; '/' k ']'") : async_scope.
Local Open Scope async_scope.

(** The world a computation leaves, whatever it returned. *)
Definition exec {A} (m : M A) (w : World) : World := (m w).2.

(** ** The store: the calls of the MongoDB driver the scripts make *)

Module Mongo.

(** [deleteOne]: the first matching document goes. *)
Fixpoint delete_first {A} (p : A → bool) (l : list A) : list A :=
  match l with
  | [] => []
  | x :: r => if p x then r else x :: delete_first p r
  end.

(** A driver call: it rejects when the store does not answer this call. *)
Definition db {A} (op : M A) : M A :=
  λ w, match faults w with
       | [] => op w
       | fails :: later =>
           if fails : bool then (Throw StoreUnavailable, set_faults later w)
           else op (set_faults later w)
       end.

(** The query [{ key: k }]. *)
Definition has_key {A K : Type} `{EqDecision K} (key : A → K) (k : K) (x : A) : bool :=
  bool_decide (key x = k).

Definition by_sessionId (sid : string) : Session → bool := has_key sessionId sid.
Definition by__id (i : DocId) : Session → bool := has_key _id i.
Definition by_jid (jid : string) : RunningDoc → bool := has_key r_jid jid.

(** [new ObjectId(s)]: taken to accept exactly the strings of 24 hexadecimal
    digits (it throws on the others), and to forget the case of the digits. *)
Definition new_ObjectId (s : string) : Res DocId :=
  if all_hex s && (String.length s =? 24)%nat
  then Ok (ObjectId (lower s)) else Throw TypeError.

(** [wasessions]: [_id] is always unique, [sessionId] is when setup.js has
    created its index. *)
Definition wasessions_toArray : M (list Session) := db (gets wasessions).

Definition wasessions_findOne (q : Session → bool) : M (option Session) :=
  db (gets (λ w, List.find q (wasessions w))).

Definition wasessions_insertOne (d : Session) : M unit :=
  db (λ w,
    if existsb (by__id (_id d)) (wasessions w)
       || (sessionId_index w && existsb (by_sessionId (sessionId d)) (wasessions w))
    then (Throw DuplicateKey, w)
    else (Ok tt, set_wasessions (λ l, l ++ [d]) w)).

Definition wasessions_deleteOne (q : Session → bool) : M unit :=
  db (modify (set_wasessions (delete_first q))).

(** [wavalidjid] *)
Definition wavalidjid_findOne (q : ValidDoc → bool) : M (option ValidDoc) :=
  db (gets (λ w, List.find q (wavalidjid w))).

(** [expiredjid] *)
Definition expiredjid_insertOne (d : ExpiredDoc) : M unit :=
  db (modify (set_expiredjid (λ l, l ++ [d]))).

(** [runningbots]: [jid] is unique (the index both scripts create at start). *)
Definition runningbots_insertOne (d : RunningDoc) : M unit :=
  db (λ w,
    if existsb (by_jid (r_jid d)) (runningbots w)
    then (Throw DuplicateKey, w)
    else (Ok tt, set_runningbots (λ l, l ++ [d]) w)).

Definition runningbots_deleteOne (q : RunningDoc → bool) : M unit :=
  db (modify (set_runningbots (delete_first q))).

Definition runningbots_countDocuments : M nat :=
  db (gets (λ w, List.length (runningbots w))).

End Mongo.
Import Mongo.

(** ** What the two scripts share word for word *)

Definition MAX_BOTS : nat := 15.

(** [DisconnectReason.loggedOut] of the connection library. *)
Definition loggedOut : Z := 401.

Inductive Connection := ConnConnecting | ConnOpen | ConnClose.

Global Instance Connection_eq_dec : EqDecision Connection.
Proof. solve_decision. Defined.

(** The argument of a [connection.update] event: [connection],
    [lastDisconnect?.error?.output?.statusCode] and whether [qr] is set. *)
Record Update := {
  connection : option Connection;
  statusCode : option Z;
  qr : bool
}.

(** What the connection provider does when asked for a socket. *)
Inductive ProviderOutcome :=
| ProviderThrows
| ProviderSock (user : option string).

(** What happens while the scheduler loop pauses: an event of a socket, or
    the store starting to reject its next [calls] calls. *)
Inductive Event :=
| ConnectionUpdate (sock : nat) (u : Update)
| StoreOutage (calls : nat).

(** The two updates that matter: the connection is open, the connection
    closed with a status code. *)
Definition opened : Update :=
  {| connection := Some ConnOpen; statusCode := None; qr := false |}.
Definition closed (code : option Z) : Update :=
  {| connection := Some ConnClose; statusCode := code; qr := false |}.

(** The schedule on which the connection of each of [n] records opens during
    the pause that follows the record; [k] is the number of the first socket. *)
Definition prompt_from (k n : nat) : list (list Event) :=
  (λ i, [ConnectionUpdate i opened]) <$> seq k n.

(** The identity the provider confirms, when it gives a socket. *)
Definition identity (p : ProviderOutcome) : option string :=
  match p with
  | ProviderSock user => user
  | ProviderThrows => None
  end.

(** [sendMessage]: the attempt is traced. A send the socket rejects is caught
    there and makes the function return [false] instead of [true]; no caller
    reads that boolean, and the outcome of a send is not an input of the
    model, which returns [true]. *)
Definition sendMessage (sock : nat) (jid text : string) : M bool :=
  modify (emit (Sent sock jid text)) ;;; ret true.

(** [jid.split('@')[0]] *)
Definition extractPhoneNumber (jid : string) : string := split_head "@" jid.

(** The same call on a value that need not be a string: anything else has no
    [split]. *)
Definition extractPhoneNumber_of (v : JsVal) : M string :=
  match v with
  | JStr s => ret (extractPhoneNumber s)
  | _ => throw TypeError
  end.

Definition expired_reason : string := "Invalid or expired session".

(** The documents the scripts write. *)
Definition expired_for (phone : string) : ExpiredDoc :=
  {| e_phoneNumber := phone; e_reason := expired_reason |}.

Definition running_for (jid sid : string) : RunningDoc :=
  {| r_jid := jid; r_sessionId := sid; r_status := "active" |}.

Definition new_sock (sid rjid : string) (user : option string) : Sock :=
  {| sk_sessionId := sid; sk_remoteJid := rjid; sk_user := user; sk_ended := false |}.

Definition ended (s : Sock) : Sock :=
  {| sk_sessionId := sk_sessionId s; sk_remoteJid := sk_remoteJid s;
     sk_user := sk_user s; sk_ended := true |}.

Definition addToExpiredJids (phone : string) : M unit :=
  try_catch (expiredjid_insertOne (expired_for phone)) (λ _, ret tt).

Definition addToRunningBots (jid sid : string) : M unit :=
  try_catch (runningbots_insertOne (running_for jid sid)) (λ _, ret tt).

Definition getRunningBotsCount : M nat :=
  try_catch runningbots_countDocuments (λ _, ret 0).

(** [makeWASocket] inside [createWhatsAppBot]/[createWhatsAppBotFromSessionData]:
    the new socket is the next one; a failure is logged and thrown again. *)
Definition createSocket (p : ProviderOutcome) (sid rjid : string) : M nat :=
  match p with
  | ProviderThrows => throw ProviderError
  | ProviderSock u =>
      λ w, let n := List.length (socks w) in
           (Ok n, emit (SockCreated n) (set_socks (λ l, l ++ [new_sock sid rjid u]) w))
  end.

(** [sock.end()] *)
Definition sock_end (n : nat) : M unit :=
  modify (λ w, emit (SockEnd n) (set_socks (alter ended n) w)).

Definition shouldReconnect (u : Update) : bool :=
  negb (bool_decide (statusCode u = Some loggedOut)).

(** The scheduler loop, [processPendingSessions], is the same text in both
    scripts; it is stated once over the script's [processSession] and
    [connection.update] handler. *)
Section Scheduler.

Variable processSession : ProviderOutcome → Session → M unit.
Variable connection_update : nat → Update → M unit.

(** An event reaches its handler; what a handler throws is an unhandled
    rejection and leaves the world as the handler left it. *)
Definition deliver1 (e : Event) (w : World) : World :=
  match e with
  | ConnectionUpdate n u => exec (connection_update n u) w
  | StoreOutage calls => set_faults (replicate calls true) w
  end.

Definition deliver (es : list Event) (w : World) : World :=
  foldl (λ w e, deliver1 e w) w es.

(** The [for] loop over the snapshot. [prov] is what the provider answers
    for a record, [sched] the events that arrive during the pause after each
    record. A throw of [processSession] leaves the loop for the [catch] of
    [processPendingSessions]. *)
Fixpoint drain (prov : Session → ProviderOutcome) (snapshot : list Session)
         (sched : list (list Event)) : M unit :=
  match snapshot with
  | [] => ret tt
  | session :: rest =>
      let* runningCount := getRunningBotsCount in
      if (MAX_BOTS <=? runningCount)%nat then ret tt
      else
        processSession (prov session) session ;;;
        modify (deliver (hd [] sched)) ;;;
        drain prov rest (tl sched)
  end.

(** One record taken from the capacity gate of [processSession] to the end
    of its first [connection.update] event, when the provider gave it a
    socket. *)
Definition drive (p : ProviderOutcome) (u : Update) (session : Session) (w : World) : World :=
  let w1 := exec (processSession p session) w in
  if decide (List.length (socks w) < List.length (socks w1))%nat
  then exec (connection_update (List.length (socks w)) u) w1
  else w1.

Definition processPendingSessions (prov : Session → ProviderOutcome)
           (sched : list (list Event)) : M unit :=
  try_catch
    (let* pendingSessions := wasessions_toArray in
     if (List.length pendingSessions =? 0)%nat then ret tt
     else drain prov pendingSessions sched)
    (λ _, ret tt).

End Scheduler.

(** ** src/unnamed/part_001: the identity comes from the live socket *)

Module Part001.

Definition msg_validated : string :=
  "✅ Session validated successfully! Checking subscription...".
Definition msg_setting_up : string :=
  "🤖 We are setting up your bot, please wait...".
Definition msg_not_subscribed : string :=
  "❌ Not subscribed, please contact the owner @254704897825 for subscription.".

(** [findOne({ jid })] *)
Definition isJidSubscribed (jid : string) : M bool :=
  modify (emit (AuthQuery jid)) ;;;
  try_catch
    (let* result := wavalidjid_findOne (λ d, bool_decide (f_jid d = Some jid)) in
     ret (bool_decide (is_Some result)))
    (λ _, ret false).

(** [deleteOne({ sessionId })] *)
Definition removeFromPendingSessions (sid : string) : M unit :=
  try_catch (wasessions_deleteOne (by_sessionId sid)) (λ _, ret tt).

Definition createWhatsAppBot (p : ProviderOutcome) (sid : string) : M nat :=
  createSocket p sid "".

(** The [connection.update] handler of socket [n]. *)
Definition connection_update (n : nat) (u : Update) : M unit :=
  let* sock := gets (λ w, socks w !! n) in
  match sock with
  | None => ret tt
  | Some sk =>
      let sid := sk_sessionId sk in
      when (bool_decide (connection u = Some ConnClose))
        (when (negb (shouldReconnect u))
           (let phone := extractPhoneNumber (default "" (sk_user sk)) in
            when (nonempty phone) (addToExpiredJids phone)) ;;;
         modify (set_activeBots (delete sid)) ;;;
         removeFromPendingSessions sid) ;;;
      when (bool_decide (connection u = Some ConnOpen))
        (let* jid := match sk_user sk with
                     | Some j => ret j
                     | None => throw TypeError
                     end in
         modify (set_activeBots (<[sid := n]>)) ;;;
         sendMessage n jid msg_validated ;;;
         let* isSubscribed := isJidSubscribed jid in
         (if isSubscribed
          then sendMessage n jid msg_setting_up ;;;
               addToRunningBots jid sid
          else sendMessage n jid msg_not_subscribed ;;;
               sock_end n ;;;
               modify (set_activeBots (delete sid))) ;;;
         removeFromPendingSessions sid)
  end.

Definition processSession (p : ProviderOutcome) (sessionData : Session) : M unit :=
  let sid := sessionId sessionData in
  try_catch
    (let* runningCount := getRunningBotsCount in
     if (MAX_BOTS <=? runningCount)%nat then ret tt
     else
       createWhatsAppBot p sid ;;;
       ret tt)
    (λ _,
       let* phone := extractPhoneNumber_of (or_else (phoneNumber sessionData) (JStr "")) in
       when (nonempty phone) (addToExpiredJids phone) ;;;
       removeFromPendingSessions sid).

Definition processPendingSessions := processPendingSessions processSession connection_update.
Definition drain := drain processSession connection_update.
Definition deliver := deliver connection_update.
Definition drive := drive processSession connection_update.

End Part001.

(** ** src/unnamed/part_000: the identity comes from the stored session data *)

Module Part000.

Definition msg_active : string :=
  "ðŸ¤– Bot is now active and running!".

(** [findOne({ Jid: jid })] *)
Definition isJidSubscribed (jid : string) : M bool :=
  modify (emit (AuthQuery jid)) ;;;
  try_catch
    (let* result := wavalidjid_findOne (λ d, bool_decide (f_Jid d = Some jid)) in
     ret (bool_decide (is_Some result)))
    (λ _, ret false).

(** [{ _id: new ObjectId(sessionId) }], or [{ sessionId }] when the
    constructor throws. *)
Definition pending_query (sid : string) : Session → bool :=
  match new_ObjectId sid with
  | Ok i => by__id i
  | Throw _ => by_sessionId sid
  end.

Definition removeFromPendingSessions (sid : string) : M unit :=
  try_catch
    (let query := pending_query sid in
     wasessions_deleteOne query)
    (λ _, ret tt).

Definition extractRemoteJidFromSession (sessionData : Session) : option string :=
  match
    match processedHistoryMessages sessionData with
    | firstMessage :: _ =>
        match key_remoteJid firstMessage with
        | Some j => if nonempty j then Some j else None
        | None => None
        end
    | [] => None
    end
  with
  | Some j => Some j
  | None =>
      match me_id sessionData with
      | Some i =>
          if nonempty i then Some (split_head ":" i ++ "@s.whatsapp.net")%string
          else None
      | None => None
      end
  end.

Definition createWhatsAppBotFromSessionData (p : ProviderOutcome) (sid rjid : string) : M nat :=
  createSocket p sid rjid.

(** [sessionData._id?.toString() || 'unknown'] *)
Definition sessionId_of (sessionData : Session) : string :=
  let s := id_toString (_id sessionData) in
  if nonempty s then s else "unknown".

(** The [connection.update] handler of socket [n]. *)
Definition connection_update (n : nat) (u : Update) : M unit :=
  let* sock := gets (λ w, socks w !! n) in
  match sock with
  | None => ret tt
  | Some sk =>
      let sid := sk_sessionId sk in
      let remoteJid := sk_remoteJid sk in
      when (bool_decide (connection u = Some ConnClose))
        (when (negb (shouldReconnect u))
           (let phone := extractPhoneNumber remoteJid in
            when (nonempty phone) (addToExpiredJids phone)) ;;;
         modify (set_activeBots (delete sid)) ;;;
         try_catch (runningbots_deleteOne (by_jid remoteJid)) (λ _, ret tt) ;;;
         removeFromPendingSessions sid) ;;;
      when (bool_decide (connection u = Some ConnOpen))
        (modify (set_activeBots (<[sid := n]>)) ;;;
         sendMessage n remoteJid msg_active ;;;
         addToRunningBots remoteJid sid ;;;
         removeFromPendingSessions sid)
  end.

Definition processSession (p : ProviderOutcome) (sessionData : Session) : M unit :=
  let sid := sessionId_of sessionData in
  let remoteJid := extractRemoteJidFromSession sessionData in
  try_catch
    (match remoteJid with
     | None => removeFromPendingSessions sid
     | Some rjid =>
         let* isSubscribed := isJidSubscribed rjid in
         if negb isSubscribed then
           addToExpiredJids (extractPhoneNumber rjid) ;;;
           removeFromPendingSessions sid
         else
           let* runningCount := getRunningBotsCount in
           if (MAX_BOTS <=? runningCount)%nat then ret tt
           else
             createWhatsAppBotFromSessionData p sid rjid ;;;
             ret tt
     end)
    (λ _,
       let* phone := extractPhoneNumber_of (or_else (phoneNumber sessionData) (JStr "")) in
       when (nonempty phone) (addToExpiredJids phone) ;;;
       removeFromPendingSessions sid).

Definition processPendingSessions := processPendingSessions processSession connection_update.
Definition drain := drain processSession connection_update.
Definition deliver := deliver connection_update.
Definition drive := drive processSession connection_update.

End Part000.

(** ** The submission endpoints, src/setup.js and the start of the process *)

(** The uploaded credentials object; [/upload-session] spreads it over the
    document it stores, so a field it has wins. *)
Record SessionData := {
  sd__id : option DocId;
  sd_sessionId : option string;
  sd_phoneNumber : option JsVal;
  sd_processedHistoryMessages : option (list HistoryMessage);
  sd_me_id : option string
}.

(** [req.body] *)
Record Body := {
  b_sessionId : option string;
  b_phoneNumber : JsVal;
  b_sessionData : option SessionData
}.

Inductive Response :=
| Json (status : nat) (message : string)
| ErrorJson (status : nat) (error : string)
| ErrorThrown (status : nat) (e : Err).

(** [!sessionId] *)
Definition missing (sid : option string) : bool :=
  match sid with
  | Some s => negb (nonempty s)
  | None => true
  end.

(** [app.post('/add-session')], the same text in both scripts. [oid] is the
    [ObjectId] the driver gives the new document. *)
Definition add_session (oid : string) (body : Body) : M Response :=
  try_catch
    (if missing (b_sessionId body) then ret (ErrorJson 400 "Session ID is required")
     else
       wasessions_insertOne
         {| _id := ObjectId oid;
            sessionId := default "" (b_sessionId body);
            phoneNumber := b_phoneNumber body;
            processedHistoryMessages := [];
            me_id := None |} ;;;
       ret (Json 200 "Session added to queue"))
    (λ e, ret (ErrorThrown 500 e)).

(** [app.post('/upload-session')] of part_000. *)
Definition upload_session (oid : string) (body : Body) : M Response :=
  try_catch
    (if missing (b_sessionId body) then ret (ErrorJson 400 "Session ID is required")
     else
       match b_sessionData body with
       | None => ret (ErrorJson 400 "Session data is required")
       | Some sessionData =>
           let sid := default "" (b_sessionId body) in
           let* existingSession := wasessions_findOne (by_sessionId sid) in
           if bool_decide (is_Some existingSession)
           then ret (ErrorJson 400 "Session ID already exists")
           else
             wasessions_insertOne
               {| _id := default (ObjectId oid) (sd__id sessionData);
                  sessionId := default sid (sd_sessionId sessionData);
                  phoneNumber :=
                    default (or_else (b_phoneNumber body) JNull) (sd_phoneNumber sessionData);
                  processedHistoryMessages :=
                    default [] (sd_processedHistoryMessages sessionData);
                  me_id := sd_me_id sessionData |} ;;;
             ret (Json 200 "Session uploaded successfully and added to processing queue")
       end)
    (λ e, ret (ErrorThrown 500 e)).

(** [createIndex({ sessionId: 1 }, { unique: true })] on [wasessions]: refused
    when two stored documents already share a [sessionId]. *)
Definition createIndex_sessionId : M unit :=
  db (λ w,
    if bool_decide (NoDup (sessionId <$> wasessions w))
    then (Ok tt, set_sessionId_index true w)
    else (Throw DuplicateKey, w)).

(** [createIndex({ jid: 1 }, { unique: true })] on [runningbots]. *)
Definition createIndex_jid : M unit :=
  db (λ w,
    if bool_decide (NoDup (r_jid <$> runningbots w))
    then (Ok tt, w)
    else (Throw DuplicateKey, w)).

(** [createIndex({ Jid: 1 }, { unique: true })] on [wavalidjid] ([jid] in
    part_001); a document without the field counts as holding [null]. *)
Definition createIndex_valid (field : ValidDoc → option string) : M unit :=
  db (λ w,
    if bool_decide (NoDup (field <$> wavalidjid w))
    then (Ok tt, w)
    else (Throw DuplicateKey, w)).

(** [setupDatabase] of src/setup.js, up to its three indexes (the sample
    document it then adds to [wavalidjid] is left out). *)
Definition setupDatabase : M unit :=
  try_catch
    (db (ret tt) ;;; createIndex_jid ;;; createIndex_valid f_Jid ;;; createIndex_sessionId)
    (λ _, ret tt).

(** [initMongoDB]: [client.connect()] and the two indexes, [false] when any
    of them throws. [field] is [Jid] in part_000 and [jid] in part_001. *)
Definition initMongoDB (field : ValidDoc → option string) : M bool :=
  try_catch
    (db (ret tt) ;;; createIndex_jid ;;; createIndex_valid field ;;; ret true)
    (λ _, ret false).

Inductive Process :=
| Exited (code : nat)
| Serving.

(** [startApplication]: [process.exit(1)] when the store cannot be reached,
    else the timers of the scheduler loop and the HTTP server are started. *)
Definition startApplication (field : ValidDoc → option string) : M Process :=
  let* mongoConnected := initMongoDB field in
  if negb mongoConnected then ret (Exited 1) else ret Serving.

(** ** Records a pass can admit *)

(** In part_001: the provider gives the record a socket and confirms an
    identity that is subscribed and has no [runningbots] row yet. *)
Definition admissible001 (prov : Session → ProviderOutcome) (w : World) (s : Session) : Prop :=
  ∃ jid, prov s = ProviderSock (Some jid)
         ∧ is_Some (List.find (λ d, bool_decide (f_jid d = Some jid)) (wavalidjid w))
         ∧ existsb (by_jid jid) (runningbots w) = false.

(** In part_000: the stored session data name an identity that is subscribed
    and has no [runningbots] row yet, the record was stored under an
    [ObjectId], and the provider gives it a socket. *)
Definition admissible000 (prov : Session → ProviderOutcome) (w : World) (s : Session) : Prop :=
  ∃ rjid, Part000.extractRemoteJidFromSession s = Some rjid
          ∧ is_Some (List.find (λ d, bool_decide (f_Jid d = Some rjid)) (wavalidjid w))
          ∧ existsb (by_jid rjid) (runningbots w) = false
          ∧ new_ObjectId (id_toString (_id s)) = Ok (_id s)
          ∧ ∃ user, prov s = ProviderSock user.

(** ** Concrete queues and schedules *)

Module Example.

Definition names : list string :=
  ["01"; "02"; "03"; "04"; "05"; "06"; "07"; "08";
   "09"; "10"; "11"; "12"; "13"; "14"; "15"; "16"].

(** The record submitted as [s<n>]: its credentials name the account
    [2547000000<n>], device 7. *)
Definition pending (n : string) : Session :=
  {| _id := ObjectId ("65f0c0ffee0123456789ab" ++ n)%string;
     sessionId := ("s" ++ n)%string;
     phoneNumber := JUndefined;
     processedHistoryMessages := [];
     me_id := Some ("2547000000" ++ n ++ ":7@s.whatsapp.net")%string |}.

Definition account (n : string) : string := ("2547000000" ++ n ++ "@s.whatsapp.net")%string.

Definition subscribed (n : string) : ValidDoc :=
  {| f_Jid := Some (account n); f_jid := Some (account n) |}.

Definition row (n : string) : RunningDoc :=
  {| r_jid := account n; r_sessionId := ("s" ++ n)%string; r_status := "active" |}.

(** Sixteen pending records, all sixteen accounts subscribed, nothing
    running, the store answering, the unique index of setup.js in place. *)
Definition queue16 : World :=
  {| wasessions := pending <$> names;
     wavalidjid := subscribed <$> names;
     expiredjid := [];
     runningbots := [];
     sessionId_index := true;
     faults := [];
     activeBots := ∅;
     socks := [];
     trace := [] |}.

(** The provider connects every record and confirms the account its
    credentials name. *)
Definition connects (s : Session) : ProviderOutcome :=
  ProviderSock (Part000.extractRemoteJidFromSession s).

(** No connection opens before the pass is over; then all do. *)
Definition opens_late : list Event :=
  (λ n, ConnectionUpdate n opened) <$> seq 0 16.

(** Fifteen workers running and one record pending. *)
Definition full : World :=
  {| wasessions := [pending "16"];
     wavalidjid := subscribed <$> names;
     expiredjid := [];
     runningbots := row <$> take 15 names;
     sessionId_index := true;
     faults := [];
     activeBots := ∅;
     socks := [];
     trace := [] |}.

(** The same, and the store about to reject two calls. *)
Definition full_then_outage : World :=
  {| wasessions := [pending "16"];
     wavalidjid := subscribed <$> names;
     expiredjid := [];
     runningbots := row <$> take 15 names;
     sessionId_index := true;
     faults := [true; true];
     activeBots := ∅;
     socks := [];
     trace := [] |}.

(** A record whose stored history names the subscribed account [01], while
    the credentials (and so the provider) say [254799999999]. *)
Definition forged : Session :=
  {| _id := ObjectId "65f0c0ffee0123456789abff";
     sessionId := "forged";
     phoneNumber := JUndefined;
     processedHistoryMessages := [{| key_remoteJid := Some (account "01") |}];
     me_id := Some "254799999999:3@s.whatsapp.net" |}.

Definition forged_queue : World :=
  {| wasessions := [forged];
     wavalidjid := [subscribed "01"];
     expiredjid := [];
     runningbots := [];
     sessionId_index := true;
     faults := [];
     activeBots := ∅;
     socks := [];
     trace := [] |}.

(** One pending record and nobody subscribed. *)
Definition nobody_subscribed : World :=
  {| wasessions := [pending "01"];
     wavalidjid := [];
     expiredjid := [];
     runningbots := [];
     sessionId_index := true;
     faults := [];
     activeBots := ∅;
     socks := [];
     trace := [] |}.

(** The first record of [queue16], admitted and opened, in either script. *)
Definition active001 : World :=
  Part001.drive (connects (pending "01")) opened (pending "01") queue16.
Definition active000 : World :=
  Part000.drive (connects (pending "01")) opened (pending "01") queue16.

(** An empty store with the unique index of setup.js, and a submission of
    the identifier [s1] with its credentials. *)
Definition empty_store : World :=
  {| wasessions := [];
     wavalidjid := [];
     expiredjid := [];
     runningbots := [];
     sessionId_index := true;
     faults := [];
     activeBots := ∅;
     socks := [];
     trace := [] |}.

Definition creds_s1 : SessionData :=
  {| sd__id := None;
     sd_sessionId := None;
     sd_phoneNumber := None;
     sd_processedHistoryMessages := None;
     sd_me_id := Some "254700000001:7@s.whatsapp.net" |}.

Definition body_s1 : Body :=
  {| b_sessionId := Some "s1";
     b_phoneNumber := JStr "254700000001";
     b_sessionData := Some creds_s1 |}.

(** A record submitted with a number, not a string, as its phone. *)
Definition numeric_phone : Session :=
  {| _id := ObjectId "65f0c0ffee0123456789abfe";
     sessionId := "numeric";
     phoneNumber := JNum 254700000099;
     processedHistoryMessages := [];
     me_id := Some "254700000001:7@s.whatsapp.net" |}.

(** A record whose credentials give [me.id] without a device part. *)
Definition bare_id : Session :=
  {| _id := ObjectId "65f0c0ffee0123456789abfd";
     sessionId := "bare";
     phoneNumber := JUndefined;
     processedHistoryMessages := [];
     me_id := Some "254700000001@s.whatsapp.net" |}.

(** Uploaded credentials that carry the [sessionId] of the record [s01]. *)
Definition carries_s01 : SessionData :=
  {| sd__id := None;
     sd_sessionId := Some "s01";
     sd_phoneNumber := None;
     sd_processedHistoryMessages := None;
     sd_me_id := Some "254700000001:7@s.whatsapp.net" |}.

(** A record stored under an [_id] of its own, not an [ObjectId]. *)
Definition own_id : Session :=
  {| _id := PlainId "my-session";
     sessionId := "s01";
     phoneNumber := JUndefined;
     processedHistoryMessages := [];
     me_id := Some "254700000001:7@s.whatsapp.net" |}.

(** part_000: the worker of the account [01] runs, and a second session of
    the same account has just been given a socket. *)
Definition twin_connects : World :=
  {| wasessions := [];
     wavalidjid := [subscribed "01"];
     expiredjid := [];
     runningbots := [row "01"];
     sessionId_index := true;
     faults := [];
     activeBots := ∅;
     socks := [new_sock "65f0c0ffee0123456789abfc" (account "01") None];
     trace := [] |}.

(** The connections of the first fourteen records open during the pause
    after their record, those of the last two after the pass is over. *)
Definition two_open_late : list (list Event) := prompt_from 0 14 ++ [[]; []].
Definition last_two_open : list Event :=
  [ConnectionUpdate 14 opened; ConnectionUpdate 15 opened].

(** The store of [queue16] with one pending record: the record submitted
    with a number as its phone; the record stored under its own [_id]. *)
Definition numeric_queue : World :=
  {| wasessions := [numeric_phone];
     wavalidjid := subscribed <$> names;
     expiredjid := [];
     runningbots := [];
     sessionId_index := true;
     faults := [];
     activeBots := ∅;
     socks := [];
     trace := [] |}.

Definition own_id_queue : World :=
  {| wasessions := [own_id];
     wavalidjid := subscribed <$> names;
     expiredjid := [];
     runningbots := [];
     sessionId_index := true;
     faults := [];
     activeBots := ∅;
     socks := [];
     trace := [] |}.

(** A store that answers, with two subscriptions as part_000 writes them:
    [Jid] set, no [jid]. *)
Definition two_Jid_subscriptions : World :=
  {| wasessions := [];
     wavalidjid := [ {| f_Jid := Some (account "01"); f_jid := None |};
                     {| f_Jid := Some (account "02"); f_jid := None |} ];
     expiredjid := [];
     runningbots := [];
     sessionId_index := true;
     faults := [];
     activeBots := ∅;
     socks := [];
     trace := [] |}.

End Example.

(** ** The rest of the two scripts *)

Definition set_wavalidjid (f : list ValidDoc → list ValidDoc) (w : World) : World :=
  mkWorld (wasessions w) (f (wavalidjid w)) (expiredjid w) (runningbots w)
          (sessionId_index w) (faults w) (activeBots w) (socks w) (trace w).

(** *** Incoming messages *)

(** [msg.message]: [conversation] and [extendedTextMessage?.text]. *)
Record MessageContent := {
  conversation : option string;
  extendedTextMessage_text : option string
}.

(** One entry of [m.messages]: [key.fromMe], [key.remoteJid], [message]. *)
Record WAMessage := {
  key_fromMe : bool;
  msg_remoteJid : string;
  message : option MessageContent
}.

(** [a || b || ''] on strings that may be missing. *)
Definition first_nonempty (a b : option string) : string :=
  match a with
  | Some s => if nonempty s then s else
                match b with Some t => if nonempty t then t else "" | None => "" end
  | None => match b with Some t => if nonempty t then t else "" | None => "" end
  end.

(** [msg.message.conversation || msg.message.extendedTextMessage?.text || ''] *)
Definition text_of (c : MessageContent) : string :=
  first_nonempty (conversation c) (extendedTextMessage_text c).

(** The [messages.upsert] handler of socket [n], the same in both scripts up
    to the text of the reply, [pong]. [m.messages[0]] of an empty batch is
    [undefined], and reading its [key] throws. [toLowerCase] is [lower]: no
    character outside ASCII becomes one of the letters of [ping]. *)
Definition messages_upsert (pong : string) (n : nat) (messages : list WAMessage) : M unit :=
  match messages with
  | [] => throw TypeError
  | msg :: _ =>
      match message msg with
      | Some content =>
          if negb (key_fromMe msg) then
            let jid := msg_remoteJid msg in
            let text := text_of content in
            when (String.eqb (lower text) "ping") (sendMessage n jid pong ;;; ret tt)
          else ret tt
      | None => ret tt
      end
  end.

Definition pong001 : string := "Pong! 🏓".

(** *** Subscriptions *)

(** [insertOne] on [wavalidjid]. [indexes] are the fields of the collection
    under a unique index; a document without the field is indexed as [null],
    so two such documents collide. *)
Definition wavalidjid_insertOne (indexes : list (ValidDoc → option string))
           (d : ValidDoc) : M unit :=
  db (λ w,
    if existsb (λ field, existsb (λ d', bool_decide (field d' = field d)) (wavalidjid w))
               indexes
    then (Throw DuplicateKey, w)
    else (Ok tt, set_wavalidjid (λ l, l ++ [d]) w)).

(** [app.post('/add-subscription')] of part_000: the document has the field
    [Jid]. The script's own index is on [Jid]; [others] are the unique
    indexes other programs have put on the collection. *)
Definition add_subscription000 (others : list (ValidDoc → option string))
           (jid : option string) : M Response :=
  try_catch
    (if missing jid then ret (ErrorJson 400 "JID is required")
     else
       wavalidjid_insertOne (f_Jid :: others) {| f_Jid := jid; f_jid := None |} ;;;
       ret (Json 200 "Subscription added"))
    (λ e, ret (ErrorThrown 500 e)).

(** The same endpoint of part_001: the document has the field [jid], and the
    script's own index is on [jid]. *)
Definition add_subscription001 (others : list (ValidDoc → option string))
           (jid : option string) : M Response :=
  try_catch
    (if missing jid then ret (ErrorJson 400 "JID is required")
     else
       wavalidjid_insertOne (f_jid :: others) {| f_Jid := None; f_jid := jid |} ;;;
       ret (Json 200 "Subscription added"))
    (λ e, ret (ErrorThrown 500 e)).

(** *** The status route and the shutdown *)

Definition wasessions_countDocuments : M nat :=
  db (gets (λ w, List.length (wasessions w))).
Definition expiredjid_countDocuments : M nat :=
  db (gets (λ w, List.length (expiredjid w))).

Inductive StatusResponse :=
| StatusJson (runningBots pendingSessions expiredSessions activeBotsSize maxBots : nat)
| StatusError (status : nat) (e : Err).

(** [app.get('/status')] *)
Definition status : M StatusResponse :=
  try_catch
    (let* runningCount := getRunningBotsCount in
     let* pendingCount := wasessions_countDocuments in
     let* expiredCount := expiredjid_countDocuments in
     let* size := gets (λ w, size (activeBots w)) in
     ret (StatusJson runningCount pendingCount expiredCount size MAX_BOTS))
    (λ e, ret (StatusError 500 e)).

(** The [SIGINT] handler: [sock.end()] on every socket of [activeBots], then
    [process.exit(0)]. The [gmap] does not keep the order in which the [Map]
    is walked; nothing below depends on it. *)
Definition shutdown : M Process :=
  modify (λ w, foldr (λ entry w', exec (sock_end entry.2) w') w
                 (map_to_list (activeBots w))) ;;;
  ret (Exited 0).

(** *** src/setup.js, whole *)

Module Setup.

(** [db.createCollection(collection)]: it creates the collection or reports
    [NamespaceExists], which the loop takes as done; any other error is thrown
    on. The collections of the model are there from the start. *)
Definition createCollection : M unit := db (ret tt).

Definition owner : ValidDoc :=
  {| f_Jid := Some "254704897825@s.whatsapp.net"; f_jid := None |}.

(** [setupDatabase]: the connection, the four collections, the three indexes,
    the sample subscription of the owner; whatever is thrown is logged.
    [others] are the unique indexes other programs have put on [wavalidjid]. *)
Definition setupDatabase (others : list (ValidDoc → option string)) : M unit :=
  try_catch
    (db (ret tt) ;;;
     createCollection ;;; createCollection ;;; createCollection ;;; createCollection ;;;
     createIndex_jid ;;;
     createIndex_valid f_Jid ;;;
     createIndex_sessionId ;;;
     wavalidjid_insertOne (f_Jid :: others) owner)
    (λ _, ret tt).

End Setup.

(** *** src/database.js *)

Module DatabaseManager.

(** [this.db], [null] until [connect] has succeeded. *)
Record Manager := { connected : bool }.

Definition new : Manager := {| connected := false |}.

(** [connect]: [true] and [this.db] set, or [false]. *)
Definition connect (m : Manager) : M (bool * Manager) :=
  try_catch
    (db (ret tt) ;;; ret (true, {| connected := true |}))
    (λ _, ret (false, m)).

(** [this.db.collection(...)]: reading [collection] of [null] throws. *)
Definition collection {A} (m : Manager) (op : M A) : M A :=
  if connected m then op else throw TypeError.

Definition addPendingSession (m : Manager) (oid sid : string) (phone : JsVal) : M unit :=
  collection m
    (wasessions_insertOne
       {| _id := ObjectId oid; sessionId := sid; phoneNumber := phone;
          processedHistoryMessages := []; me_id := None |}).

Definition getPendingSessions (m : Manager) : M (list Session) :=
  collection m wasessions_toArray.

Definition removePendingSession (m : Manager) (sid : string) : M unit :=
  collection m (wasessions_deleteOne (by_sessionId sid)).

Definition isJidValid (m : Manager) (jid : string) : M bool :=
  collection m
    (let* result := wavalidjid_findOne (λ d, bool_decide (f_jid d = Some jid)) in
     ret (bool_decide (is_Some result))).

Definition addValidJid (m : Manager) (indexes : list (ValidDoc → option string))
           (jid : string) : M unit :=
  collection m (wavalidjid_insertOne indexes {| f_Jid := None; f_jid := Some jid |}).

(** [addExpiredJid(phoneNumber, reason = 'Invalid session')] *)
Definition addExpiredJid (m : Manager) (phone : string) (reason : option string) : M unit :=
  collection m
    (expiredjid_insertOne
       {| e_phoneNumber := phone; e_reason := default "Invalid session" reason |}).

Definition addRunningBot (m : Manager) (jid sid : string) : M unit :=
  collection m (runningbots_insertOne (running_for jid sid)).

Definition removeRunningBot (m : Manager) (jid : string) : M unit :=
  collection m (runningbots_deleteOne (by_jid jid)).

Definition getRunningBotsCount (m : Manager) : M nat :=
  collection m runningbots_countDocuments.

Definition getRunningBots (m : Manager) : M (list RunningDoc) :=
  collection m (db (gets runningbots)).

End DatabaseManager.

(** ** How the world may move *)

(** Every run of [m] takes a world to one that [R] relates it to. *)
Definition moves {A} (R : relation World) (m : M A) : Prop :=
  ∀ w, R w (m w).2.

(** A relation every step of the socket handlers respects. *)
Class HandlerRel (R : relation World) : Prop := {
  rel_preorder :: PreOrder R;
  rel_emit : ∀ e w, R w (emit e w);
  rel_faults : ∀ l w, R w (set_faults l w);
  rel_handle : ∀ n sk w,
    socks w !! n = Some sk → R w (set_activeBots (<[sk_sessionId sk := n]>) w);
  rel_unhandle : ∀ sid w, R w (set_activeBots (delete sid) w);
  rel_end : ∀ n w, R w (set_socks (alter ended n) w);
  rel_expire : ∀ d w, R w (set_expiredjid (λ l, l ++ [d]) w);
  rel_add_row : ∀ d w,
    existsb (by_jid (r_jid d)) (runningbots w) = false →
    R w (set_runningbots (λ l, l ++ [d]) w);
  rel_delete_row : ∀ q w, R w (set_runningbots (delete_first q) w);
  rel_delete_pending : ∀ q w, R w (set_wasessions (delete_first q) w)
}.

(** A relation [processSession] respects too: it may make a socket. *)
Class CoreRel (R : relation World) : Prop := {
  rel_handlers :: HandlerRel R;
  rel_new_sock : ∀ sk w, R w (set_socks (λ l, l ++ [sk]) w)
}.

(** The invariants and relations of interest. *)
Definition rows_unique (w : World) : Prop := NoDup (r_jid <$> runningbots w).

Definition handles_sound (w : World) : Prop :=
  ∀ sid n, activeBots w !! sid = Some n →
           ∃ sk, socks w !! n = Some sk ∧ sk_sessionId sk = sid.

Definition keeps (P : World → Prop) : relation World := λ w w', P w → P w'.

Definition read_only_parts : relation World :=
  λ w w', wavalidjid w' = wavalidjid w ∧ sessionId_index w' = sessionId_index w.

Definition pending_shrinks : relation World :=
  λ w w', wasessions w' `sublist_of` wasessions w.

Definition expired_grows : relation World :=
  λ w w', expiredjid w `prefix_of` expiredjid w'.

(** No document of [wavalidjid] holds [jid] in the field [field]. *)
Definition lacks (field : ValidDoc → option string) (jid : string) (w : World) : Prop :=
  List.find (λ d, bool_decide (field d = Some jid)) (wavalidjid w) = None.

Definition same_sockets : relation World :=
  λ w w', List.length (socks w') = List.length (socks w)
          ∧ ∀ n, sk_sessionId <$> socks w' !! n = sk_sessionId <$> socks w !! n.

(** * Properties *)

Lemma MAX_BOTS_eq : MAX_BOTS = 15%nat.
Proof. reflexivity. Qed.

Global Opaque MAX_BOTS.

(** ** [deleteOne] on a collection with a unique key *)

Section DeleteFirst.

Context {A K : Type} `{EqDecision K} (key : A → K).

Lemma delete_first_none k (l : list A) :
  (∀ x, x ∈ l → key x ≠ k) → delete_first (has_key key k) l = l.
Proof.
  induction l as [|x l IH]; intros Hl; [done|]. simpl. unfold has_key at 1.
  rewrite bool_decide_eq_false_2; [|apply Hl; left].
  f_equal. apply IH. intros y Hy. apply Hl. by right.
Qed.

Lemma delete_first_subseteq p (l : list A) x :
  x ∈ delete_first p l → x ∈ l.
Proof.
  induction l as [|y l IH]; simpl; [done|].
  destruct (p y); [by right|]. intros [->|Hx]%elem_of_cons; [left|right; auto].
Qed.

Lemma delete_first_unique k (l : list A) :
  NoDup (key <$> l) → ∀ x, x ∈ delete_first (has_key key k) l → key x ≠ k.
Proof.
  induction l as [|y l IH]; simpl; [intros _ x Hx; by apply elem_of_nil in Hx|].
  intros [Hy Hl]%NoDup_cons x. unfold has_key at 1. case_bool_decide as Hk.
  - intros Hx Hkx. apply Hy. rewrite Hk, <- Hkx. apply list_elem_of_fmap. eauto.
  - intros [->|Hx]%elem_of_cons; [done|]. by apply IH.
Qed.

Lemma delete_first_idem k (l : list A) :
  NoDup (key <$> l) →
  delete_first (has_key key k) (delete_first (has_key key k) l) = delete_first (has_key key k) l.
Proof. intros Hl. apply delete_first_none. by apply delete_first_unique. Qed.

Lemma delete_first_length k (l : list A) x :
  x ∈ l → key x = k → S (List.length (delete_first (has_key key k) l)) = List.length l.
Proof.
  induction l as [|y l IH]; [by intros ?%elem_of_nil|].
  simpl. unfold has_key at 1. case_bool_decide as Hk; [done|].
  intros [->|Hx]%elem_of_cons Hkx; [done|]. simpl. f_equal. by apply IH.
Qed.

Lemma delete_first_NoDup p (l : list A) :
  NoDup (key <$> l) → NoDup (key <$> delete_first p l).
Proof.
  induction l as [|y l IH]; simpl; [done|].
  intros [Hy Hl]%NoDup_cons. destruct (p y); [done|].
  simpl. apply NoDup_cons. split; [|auto].
  intros (z & Hz & Hin)%list_elem_of_fmap. apply Hy. apply list_elem_of_fmap.
  exists z. split; [done|]. by eapply delete_first_subseteq.
Qed.

Lemma delete_first_head p (x : A) l : p x = true → delete_first p (x :: l) = l.
Proof. simpl. by intros ->. Qed.

End DeleteFirst.

(** ** The helpers while the store answers *)

Section StoreAnswers.

Variable w : World.
Hypothesis answers : faults w = [].

Lemma db_answers {A} (op : M A) : db op w = op w.
Proof using answers. unfold db. by rewrite answers. Qed.

Lemma getRunningBotsCount_answers :
  getRunningBotsCount w = (Ok (List.length (runningbots w)), w).
Proof using answers.
  unfold getRunningBotsCount, try_catch, runningbots_countDocuments.
  by rewrite db_answers.
Qed.

Lemma addToExpiredJids_answers phone :
  addToExpiredJids phone w =
  (Ok tt, set_expiredjid (λ l, l ++ [expired_for phone]) w).
Proof using answers.
  unfold addToExpiredJids, try_catch, expiredjid_insertOne.
  by rewrite db_answers.
Qed.

Lemma addToRunningBots_answers jid sid :
  addToRunningBots jid sid w =
  (Ok tt,
   if existsb (by_jid jid) (runningbots w) then w
   else set_runningbots (λ l, l ++ [running_for jid sid]) w).
Proof using answers.
  unfold addToRunningBots, try_catch, runningbots_insertOne.
  rewrite db_answers. simpl. by destruct (existsb _ _).
Qed.

Lemma removeFromPendingSessions001_answers sid :
  Part001.removeFromPendingSessions sid w =
  (Ok tt, set_wasessions (delete_first (by_sessionId sid)) w).
Proof using answers.
  unfold Part001.removeFromPendingSessions, try_catch, wasessions_deleteOne.
  by rewrite db_answers.
Qed.

Lemma removeFromPendingSessions000_answers sid :
  Part000.removeFromPendingSessions sid w =
  (Ok tt, set_wasessions (delete_first (Part000.pending_query sid)) w).
Proof using answers.
  unfold Part000.removeFromPendingSessions, try_catch, wasessions_deleteOne.
  by rewrite db_answers.
Qed.

Lemma isJidSubscribed001_answers jid :
  Part001.isJidSubscribed jid w =
  (Ok (bool_decide (is_Some (List.find (λ d, bool_decide (f_jid d = Some jid))
                                      (wavalidjid w)))),
   emit (AuthQuery jid) w).
Proof using answers.
  unfold Part001.isJidSubscribed, try_catch, wavalidjid_findOne, bind, modify, db, gets.
  simpl. by rewrite answers.
Qed.

Lemma isJidSubscribed000_answers jid :
  Part000.isJidSubscribed jid w =
  (Ok (bool_decide (is_Some (List.find (λ d, bool_decide (f_Jid d = Some jid))
                                      (wavalidjid w)))),
   emit (AuthQuery jid) w).
Proof using answers.
  unfold Part000.isJidSubscribed, try_catch, wavalidjid_findOne, bind, modify, db, gets.
  simpl. by rewrite answers.
Qed.

End StoreAnswers.

(** ** What each path of the two scripts does while the store answers *)

Ltac store_answers :=
  repeat first
    [ rewrite getRunningBotsCount_answers by done
    | rewrite addToExpiredJids_answers by done
    | rewrite addToRunningBots_answers by done
    | rewrite removeFromPendingSessions001_answers by done
    | rewrite removeFromPendingSessions000_answers by done
    | rewrite isJidSubscribed001_answers by done
    | rewrite isJidSubscribed000_answers by done ].

Ltac unfold_async := unfold when, bind, try_catch, modify, gets, ret, throw, sendMessage, sock_end.

Section Paths001.

Variable w : World.
Hypothesis answers : faults w = [].

Lemma close001 n sk u :
  socks w !! n = Some sk → connection u = Some ConnClose →
  Part001.connection_update n u w =
  (Ok tt,
   set_wasessions (delete_first (by_sessionId (sk_sessionId sk)))
     (set_activeBots (delete (sk_sessionId sk))
        (if negb (shouldReconnect u)
            && nonempty (extractPhoneNumber (default "" (sk_user sk)))
         then set_expiredjid
                (λ l, l ++ [expired_for (extractPhoneNumber (default "" (sk_user sk)))]) w
         else w))).
Proof using answers.
  intros Hs Hc. unfold Part001.connection_update.
  unfold bind at 1. unfold gets. rewrite Hs, Hc. simpl. unfold_async.
  destruct (shouldReconnect u); simpl; [by store_answers|].
  destruct (nonempty _); simpl; by store_answers.
Qed.

Lemma open001_subscribed n sk u jid :
  socks w !! n = Some sk → sk_user sk = Some jid → connection u = Some ConnOpen →
  is_Some (List.find (λ d, bool_decide (f_jid d = Some jid)) (wavalidjid w)) →
  Part001.connection_update n u w =
  (Ok tt,
   set_wasessions (delete_first (by_sessionId (sk_sessionId sk)))
     (let w1 := emit (Sent n jid Part001.msg_setting_up)
                  (emit (AuthQuery jid)
                     (emit (Sent n jid Part001.msg_validated)
                        (set_activeBots (<[sk_sessionId sk := n]>) w))) in
      if existsb (by_jid jid) (runningbots w) then w1
      else set_runningbots (λ l, l ++ [running_for jid (sk_sessionId sk)]) w1)).
Proof using answers.
  intros Hs Hu Hc Hsub. unfold Part001.connection_update.
  unfold bind at 1. unfold gets. rewrite Hs, Hc, Hu. simpl. unfold_async. simpl.
  store_answers. simpl. rewrite bool_decide_eq_true_2 by done.
  store_answers. simpl. destruct (existsb _ _); by store_answers.
Qed.

Lemma open001_unsubscribed n sk u jid :
  socks w !! n = Some sk → sk_user sk = Some jid → connection u = Some ConnOpen →
  List.find (λ d, bool_decide (f_jid d = Some jid)) (wavalidjid w) = None →
  Part001.connection_update n u w =
  (Ok tt,
   set_wasessions (delete_first (by_sessionId (sk_sessionId sk)))
     (set_activeBots (delete (sk_sessionId sk))
        (emit (SockEnd n)
           (set_socks (alter ended n)
              (emit (Sent n jid Part001.msg_not_subscribed)
                 (emit (AuthQuery jid)
                    (emit (Sent n jid Part001.msg_validated)
                       (set_activeBots (<[sk_sessionId sk := n]>) w)))))))).
Proof using answers.
  intros Hs Hu Hc Hsub. unfold Part001.connection_update.
  unfold bind at 1. unfold gets. rewrite Hs, Hc, Hu. simpl. unfold_async. simpl.
  store_answers. simpl. rewrite Hsub. simpl. by store_answers.
Qed.

Lemma process001_admits user session :
  (List.length (runningbots w) < MAX_BOTS)%nat →
  Part001.processSession (ProviderSock user) session w =
  (Ok tt, emit (SockCreated (List.length (socks w)))
            (set_socks (λ l, l ++ [new_sock (sessionId session) "" user]) w)).
Proof using answers.
  intros Hlt. unfold Part001.processSession. unfold_async. store_answers.
  by rewrite (proj2 (Nat.leb_gt _ _) Hlt).
Qed.

Lemma process001_defers p session :
  (MAX_BOTS ≤ List.length (runningbots w))%nat →
  Part001.processSession p session w = (Ok tt, w).
Proof using answers.
  intros Hle. unfold Part001.processSession. unfold_async. store_answers.
  by rewrite (proj2 (Nat.leb_le _ _) Hle).
Qed.

Lemma process001_provider_error session phone :
  (List.length (runningbots w) < MAX_BOTS)%nat →
  or_else (phoneNumber session) (JStr "") = JStr phone →
  Part001.processSession ProviderThrows session w =
  (Ok tt,
   set_wasessions (delete_first (by_sessionId (sessionId session)))
     (if nonempty (extractPhoneNumber phone)
      then set_expiredjid (λ l, l ++ [expired_for (extractPhoneNumber phone)]) w
      else w)).
Proof using answers.
  intros Hlt Hph. unfold Part001.processSession. unfold_async. store_answers.
  rewrite (proj2 (Nat.leb_gt _ _) Hlt). simpl. rewrite Hph. simpl.
  destruct (nonempty _); by store_answers.
Qed.

End Paths001.

Section Paths000.

Variable w : World.
Hypothesis answers : faults w = [].

Lemma close000 n sk u :
  socks w !! n = Some sk → connection u = Some ConnClose →
  Part000.connection_update n u w =
  (Ok tt,
   set_wasessions (delete_first (Part000.pending_query (sk_sessionId sk)))
     (set_runningbots (delete_first (by_jid (sk_remoteJid sk)))
        (set_activeBots (delete (sk_sessionId sk))
           (if negb (shouldReconnect u) && nonempty (extractPhoneNumber (sk_remoteJid sk))
            then set_expiredjid
                   (λ l, l ++ [expired_for (extractPhoneNumber (sk_remoteJid sk))]) w
            else w)))).
Proof using answers.
  intros Hs Hc. unfold Part000.connection_update.
  unfold bind at 1. unfold gets. rewrite Hs, Hc. simpl. unfold_async.
  unfold runningbots_deleteOne, modify.
  destruct (shouldReconnect u); simpl.
  - rewrite db_answers by done. by store_answers.
  - destruct (nonempty _); simpl; store_answers;
      rewrite db_answers by done; by store_answers.
Qed.

Lemma open000 n sk u :
  socks w !! n = Some sk → connection u = Some ConnOpen →
  Part000.connection_update n u w =
  (Ok tt,
   set_wasessions (delete_first (Part000.pending_query (sk_sessionId sk)))
     (let w1 := emit (Sent n (sk_remoteJid sk) Part000.msg_active)
                  (set_activeBots (<[sk_sessionId sk := n]>) w) in
      if existsb (by_jid (sk_remoteJid sk)) (runningbots w) then w1
      else set_runningbots
             (λ l, l ++ [running_for (sk_remoteJid sk) (sk_sessionId sk)]) w1)).
Proof using answers.
  intros Hs Hc. unfold Part000.connection_update.
  unfold bind at 1. unfold gets. rewrite Hs, Hc. simpl. unfold_async. simpl.
  store_answers. simpl. destruct (existsb _ _); by store_answers.
Qed.

Lemma process000_no_identity p session :
  Part000.extractRemoteJidFromSession session = None →
  Part000.processSession p session w =
  (Ok tt, set_wasessions (delete_first (Part000.pending_query (Part000.sessionId_of session))) w).
Proof using answers.
  intros He. unfold Part000.processSession. rewrite He. unfold_async.
  by store_answers.
Qed.

Lemma process000_unsubscribed p session rjid :
  Part000.extractRemoteJidFromSession session = Some rjid →
  List.find (λ d, bool_decide (f_Jid d = Some rjid)) (wavalidjid w) = None →
  Part000.processSession p session w =
  (Ok tt,
   set_wasessions (delete_first (Part000.pending_query (Part000.sessionId_of session)))
     (set_expiredjid (λ l, l ++ [expired_for (extractPhoneNumber rjid)])
        (emit (AuthQuery rjid) w))).
Proof using answers.
  intros He Hsub. unfold Part000.processSession. rewrite He. unfold_async.
  store_answers. simpl. rewrite Hsub. simpl. by store_answers.
Qed.

Lemma process000_admits user session rjid :
  Part000.extractRemoteJidFromSession session = Some rjid →
  is_Some (List.find (λ d, bool_decide (f_Jid d = Some rjid)) (wavalidjid w)) →
  (List.length (runningbots w) < MAX_BOTS)%nat →
  Part000.processSession (ProviderSock user) session w =
  (Ok tt, emit (SockCreated (List.length (socks w)))
            (set_socks (λ l, l ++ [new_sock (Part000.sessionId_of session) rjid user])
               (emit (AuthQuery rjid) w))).
Proof using answers.
  intros He Hsub Hlt. unfold Part000.processSession. rewrite He. unfold_async.
  store_answers. simpl. rewrite bool_decide_eq_true_2 by done. simpl.
  store_answers. simpl. by rewrite (proj2 (Nat.leb_gt _ _) Hlt).
Qed.

Lemma process000_defers p session rjid :
  Part000.extractRemoteJidFromSession session = Some rjid →
  is_Some (List.find (λ d, bool_decide (f_Jid d = Some rjid)) (wavalidjid w)) →
  (MAX_BOTS ≤ List.length (runningbots w))%nat →
  Part000.processSession p session w = (Ok tt, emit (AuthQuery rjid) w).
Proof using answers.
  intros He Hsub Hle. unfold Part000.processSession. rewrite He. unfold_async.
  store_answers. simpl. rewrite bool_decide_eq_true_2 by done. simpl.
  store_answers. simpl. by rewrite (proj2 (Nat.leb_le _ _) Hle).
Qed.

Lemma process000_provider_error session rjid phone :
  Part000.extractRemoteJidFromSession session = Some rjid →
  is_Some (List.find (λ d, bool_decide (f_Jid d = Some rjid)) (wavalidjid w)) →
  (List.length (runningbots w) < MAX_BOTS)%nat →
  or_else (phoneNumber session) (JStr "") = JStr phone →
  Part000.processSession ProviderThrows session w =
  (Ok tt,
   set_wasessions (delete_first (Part000.pending_query (Part000.sessionId_of session)))
     (if nonempty (extractPhoneNumber phone)
      then set_expiredjid (λ l, l ++ [expired_for (extractPhoneNumber phone)])
             (emit (AuthQuery rjid) w)
      else emit (AuthQuery rjid) w)).
Proof using answers.
  intros He Hsub Hlt Hph. unfold Part000.processSession. rewrite He. unfold_async.
  store_answers. simpl. rewrite bool_decide_eq_true_2 by done. simpl.
  store_answers. simpl. rewrite (proj2 (Nat.leb_gt _ _) Hlt). simpl.
  rewrite Hph. simpl. destruct (nonempty _); by store_answers.
Qed.

End Paths000.

(** ** The capacity gate under a store failure *)

Lemma getRunningBotsCount_rejected w later :
  faults w = true :: later →
  getRunningBotsCount w = (Ok 0%nat, set_faults later w).
Proof.
  intros Hf. unfold getRunningBotsCount, try_catch, runningbots_countDocuments, db.
  by rewrite Hf.
Qed.

(** C10. When the store rejects the count query, [getRunningBotsCount]
    returns 0 instead of throwing; so, although [MAX_BOTS] rows or more are in
    [runningbots], the gate of the scheduler loop lets the loop go on to the
    record, and the gate of [processSession] lets the record through to the
    connection provider (in part_000 once the subscription look-up before it
    has been answered): the check fails open. *)
Theorem capacity_gate_fails_open w later :
  faults w = true :: later →
  (MAX_BOTS ≤ List.length (runningbots w))%nat →
  getRunningBotsCount w = (Ok 0%nat, set_faults later w)
  ∧ (∀ processSession connection_update prov session rest sched,
       drain processSession connection_update prov (session :: rest) sched w
       = (processSession (prov session) session ;;;
          modify (deliver connection_update (hd [] sched)) ;;;
          drain processSession connection_update prov rest (tl sched))
           (set_faults later w))
  ∧ (∀ user session,
       Part001.processSession (ProviderSock user) session w
       = (Ok tt,
          emit (SockCreated (List.length (socks w)))
            (set_socks (λ l, l ++ [new_sock (sessionId session) "" user])
               (set_faults later w))))
  ∧ (∀ user session rjid,
       Part000.extractRemoteJidFromSession session = Some rjid →
       is_Some (List.find (λ d, bool_decide (f_Jid d = Some rjid)) (wavalidjid w)) →
       Part000.processSession (ProviderSock user) session (set_faults (false :: true :: later) w)
       = (Ok tt,
          emit (SockCreated (List.length (socks w)))
            (set_socks (λ l, l ++ [new_sock (Part000.sessionId_of session) rjid user])
               (emit (AuthQuery rjid) (set_faults later w))))).
Proof.
  intros Hf _. split; [by apply getRunningBotsCount_rejected|]. split; [|split].
  - intros ps cu prov session rest sched. simpl.
    unfold bind at 1. by rewrite (getRunningBotsCount_rejected w later Hf).
  - intros user session.
    unfold Part001.processSession, try_catch, bind.
    by rewrite (getRunningBotsCount_rejected w later Hf).
  - intros user session rjid He Hsub.
    unfold Part000.processSession. rewrite He.
    unfold Part000.isJidSubscribed, wavalidjid_findOne, getRunningBotsCount,
      runningbots_countDocuments, db.
    unfold_async. simpl. by rewrite bool_decide_eq_true_2 by done.
Qed.

(** With fifteen workers running and the store rejecting the two count
    queries, the loop of part_001 still hands the sixteenth record to the
    provider. *)
Lemma capacity_gate_fails_open_witness :
  getRunningBotsCount Example.full_then_outage
  = (Ok 0%nat, set_faults [true] Example.full_then_outage)
  ∧ List.length (socks (exec (Part001.drain Example.connects [Example.pending "16"] [])
                              Example.full_then_outage)) = 1%nat.
Proof.
  split.
  - apply (capacity_gate_fails_open Example.full_then_outage [true]).
    + reflexivity.
    + vm_compute. lia.
  - vm_compute. reflexivity.
Defined.

(** ** Every terminal path removes the pending record *)

Lemma set_wasessions_same f w :
  f (wasessions w) = wasessions w → set_wasessions f w = w.
Proof. destruct w. unfold set_wasessions. simpl. by intros ->. Qed.

Lemma removed_once {A K : Type} `{EqDecision K} (key : A → K) k (l : list A) x :
  x ∈ l → key x = k → NoDup (key <$> l) →
  (∀ d, d ∈ delete_first (has_key key k) l → key d ≠ k)
  ∧ S (List.length (delete_first (has_key key k) l)) = List.length l
  ∧ delete_first (has_key key k) (delete_first (has_key key k) l)
    = delete_first (has_key key k) l.
Proof.
  intros Hx Hk Hl. split; [by apply delete_first_unique|].
  split; [by eapply delete_first_length|by apply delete_first_idem].
Qed.

(** A record the driver stored: its [_id] is an [ObjectId], which reads back
    from its string. *)
Lemma pending_query_of_ObjectId session :
  new_ObjectId (id_toString (_id session)) = Ok (_id session) →
  Part000.pending_query (Part000.sessionId_of session) = by__id (_id session).
Proof.
  intros Hid. unfold Part000.sessionId_of.
  assert (nonempty (id_toString (_id session)) = true) as ->.
  { unfold new_ObjectId in Hid. destruct (id_toString (_id session)); [|done].
    by vm_compute in Hid. }
  unfold Part000.pending_query. by rewrite Hid.
Qed.

Lemma drive001_pending w session p u :
  faults w = [] →
  (List.length (runningbots w) < MAX_BOTS)%nat →
  (∃ phone, or_else (phoneNumber session) (JStr "") = JStr phone) →
  connection u = Some ConnOpen ∨ connection u = Some ConnClose →
  (connection u = Some ConnOpen → ∀ user, p = ProviderSock user → is_Some user) →
  wasessions (Part001.drive p u session w)
  = delete_first (by_sessionId (sessionId session)) (wasessions w)
  ∧ faults (Part001.drive p u session w) = [].
Proof.
  intros Hf Hlt [phone Hph] Hu Hp. unfold Part001.drive, drive, exec.
  destruct p as [|user].
  - rewrite (process001_provider_error w Hf session phone Hlt Hph). simpl.
    destruct (nonempty _); simpl; by rewrite decide_False by lia.
  - rewrite (process001_admits w Hf user session Hlt). simpl.
    rewrite decide_True by (rewrite length_app; simpl; lia).
    set (w1 := emit _ _).
    assert (socks w1 !! List.length (socks w)
            = Some (new_sock (sessionId session) "" user)) as Hsk.
    { subst w1. simpl. by rewrite lookup_app_r, Nat.sub_diag. }
    destruct Hu as [Hu|Hu].
    + destruct (Hp Hu user eq_refl) as [jid ->].
      destruct (List.find (λ d, bool_decide (f_jid d = Some jid)) (wavalidjid w1))
        as [d|] eqn:Hsub.
      * rewrite (open001_subscribed w1 Hf _ _ u jid Hsk eq_refl Hu)
          by (rewrite Hsub; eauto).
        simpl. by destruct (existsb _ _).
      * by rewrite (open001_unsubscribed w1 Hf _ _ u jid Hsk eq_refl Hu Hsub).
    + rewrite (close001 w1 Hf _ _ u Hsk Hu). simpl.
      by destruct (_ && _).
Qed.

Lemma drive000_pending w session p u :
  faults w = [] →
  new_ObjectId (id_toString (_id session)) = Ok (_id session) →
  (List.length (runningbots w) < MAX_BOTS)%nat →
  (∃ phone, or_else (phoneNumber session) (JStr "") = JStr phone) →
  connection u = Some ConnOpen ∨ connection u = Some ConnClose →
  wasessions (Part000.drive p u session w)
  = delete_first (by__id (_id session)) (wasessions w)
  ∧ faults (Part000.drive p u session w) = [].
Proof.
  intros Hf Hid Hlt [phone Hph] Hu. unfold Part000.drive, drive, exec.
  pose proof (pending_query_of_ObjectId session Hid) as Hq.
  destruct (Part000.extractRemoteJidFromSession session) as [rjid|] eqn:He.
  2:{ rewrite (process000_no_identity w Hf p session He). simpl.
      rewrite decide_False by lia. simpl. by rewrite Hq. }
  destruct (List.find (λ d, bool_decide (f_Jid d = Some rjid)) (wavalidjid w))
    as [d|] eqn:Hsub.
  2:{ rewrite (process000_unsubscribed w Hf p session rjid He Hsub). simpl.
      rewrite decide_False by lia. simpl. by rewrite Hq. }
  assert (is_Some (List.find (λ d, bool_decide (f_Jid d = Some rjid)) (wavalidjid w)))
    as Hsome by (rewrite Hsub; eauto).
  destruct p as [|user].
  - rewrite (process000_provider_error w Hf session rjid phone He Hsome Hlt Hph).
    rewrite Hq. destruct (nonempty _); simpl; by rewrite decide_False by lia.
  - rewrite (process000_admits w Hf user session rjid He Hsome Hlt). simpl.
    rewrite decide_True by (rewrite length_app; simpl; lia).
    set (w1 := emit _ _).
    assert (socks w1 !! List.length (socks w)
            = Some (new_sock (Part000.sessionId_of session) rjid user)) as Hsk.
    { subst w1. simpl. by rewrite lookup_app_r, Nat.sub_diag. }
    destruct Hu as [Hu|Hu].
    + rewrite (open000 w1 Hf _ _ u Hsk Hu). simpl. rewrite Hq.
      by destruct (existsb _ _).
    + rewrite (close000 w1 Hf _ _ u Hsk Hu). simpl. rewrite Hq.
      by destruct (_ && _).
Qed.

(** The records every terminal path does remove. A pending record taken
    through [processSession] and, when the provider gave it a socket, through
    the socket's open or close event, is removed from [wasessions] on every
    path (provider error, missing identity, unauthorized, activated, closed):
    what is left is the collection without that one record, nothing else of
    it is touched, and a further [removeFromPendingSessions] for the same
    record changes nothing; provided that the store answers, identifiers are
    unique, the record was stored under an [ObjectId], the declared phone is
    a string or absent, the capacity gate is open (else the record is
    deferred), and a socket that opens has an identity. The records these
    provisos keep out are the subject of the theorem that follows. *)
Theorem pending_record_removed_exactly_once w session p u :
  faults w = [] →
  session ∈ wasessions w →
  NoDup (sessionId <$> wasessions w) →
  NoDup (_id <$> wasessions w) →
  new_ObjectId (id_toString (_id session)) = Ok (_id session) →
  (List.length (runningbots w) < MAX_BOTS)%nat →
  (∃ phone, or_else (phoneNumber session) (JStr "") = JStr phone) →
  connection u = Some ConnOpen ∨ connection u = Some ConnClose →
  (connection u = Some ConnOpen → ∀ user, p = ProviderSock user → is_Some user) →
  (let w1 := Part001.drive p u session w in
   wasessions w1 = delete_first (by_sessionId (sessionId session)) (wasessions w)
   ∧ (∀ d, d ∈ wasessions w1 → sessionId d ≠ sessionId session)
   ∧ S (List.length (wasessions w1)) = List.length (wasessions w)
   ∧ exec (Part001.removeFromPendingSessions (sessionId session)) w1 = w1)
  ∧ (let w0 := Part000.drive p u session w in
     wasessions w0 = delete_first (by__id (_id session)) (wasessions w)
     ∧ (∀ d, d ∈ wasessions w0 → _id d ≠ _id session)
     ∧ S (List.length (wasessions w0)) = List.length (wasessions w)
     ∧ exec (Part000.removeFromPendingSessions (Part000.sessionId_of session)) w0 = w0).
Proof.
  intros Hf Hin Hsid Hoid Hid Hlt Hph Hu Hp. split.
  - destruct (drive001_pending w session p u Hf Hlt Hph Hu Hp) as [Hw Hf1].
    destruct (removed_once sessionId (sessionId session) (wasessions w) session
                Hin eq_refl Hsid) as (Hgone & Hlen & Hidem).
    simpl. rewrite Hw. repeat split; [done|done|].
    unfold exec. rewrite removeFromPendingSessions001_answers by done. simpl.
    apply set_wasessions_same. by rewrite Hw.
  - destruct (drive000_pending w session p u Hf Hid Hlt Hph Hu) as [Hw Hf0].
    destruct (removed_once _id (_id session) (wasessions w) session
                Hin eq_refl Hoid) as (Hgone & Hlen & Hidem).
    simpl. rewrite Hw. repeat split; [done|done|].
    unfold exec. rewrite removeFromPendingSessions000_answers by done. simpl.
    apply set_wasessions_same. rewrite (pending_query_of_ObjectId session Hid).
    by rewrite Hw.
Qed.

(** The first record of the example queue, connected and opened. *)
Lemma pending_record_removed_exactly_once_witness :
  S (List.length (wasessions
       (Part001.drive (Example.connects (Example.pending "01")) opened
          (Example.pending "01") Example.queue16)))
  = List.length (wasessions Example.queue16)
  ∧ S (List.length (wasessions
         (Part000.drive (Example.connects (Example.pending "01")) opened
            (Example.pending "01") Example.queue16)))
    = List.length (wasessions Example.queue16).
Proof.
  destruct (pending_record_removed_exactly_once Example.queue16 (Example.pending "01")
              (Example.connects (Example.pending "01")) opened)
    as [(_ & _ & H1 & _) (_ & _ & H0 & _)].
  - reflexivity.
  - left.
  - apply (bool_decide_unpack _). vm_compute. exact I.
  - apply (bool_decide_unpack _). vm_compute. exact I.
  - reflexivity.
  - rewrite MAX_BOTS_eq. simpl. lia.
  - exists "". reflexivity.
  - left. reflexivity.
  - intros _ user [= <-]. vm_compute. eauto.
  - split; assumption.
Defined.

(** C6, on the code. Two pending records that reach a terminal path and are
    not removed. The record submitted with a number as its phone, when the
    provider throws: the [catch] block of [processSession] calls [split] on
    the number and throws in its turn, before [removeFromPendingSessions];
    the pass is left and the record is still pending after it, in either
    script. And in part_000 the record stored under an [_id] of its own: it
    is admitted and its connection opens, the row is written, and the record
    stays in [wasessions], because the removal looks for an [ObjectId] made
    from the [_id] string and then for a [sessionId] equal to that string. *)
Theorem pending_record_outlives_its_terminal_path :
  ((Part001.processSession ProviderThrows Example.numeric_phone Example.numeric_queue).1
   = Throw TypeError
   ∧ wasessions (exec (Part001.processSession ProviderThrows Example.numeric_phone)
                   Example.numeric_queue) = [Example.numeric_phone]
   ∧ wasessions (exec (Part001.processPendingSessions (λ _, ProviderThrows) [])
                   Example.numeric_queue) = [Example.numeric_phone])
  ∧ ((Part000.processSession ProviderThrows Example.numeric_phone Example.numeric_queue).1
     = Throw TypeError
     ∧ wasessions (exec (Part000.processSession ProviderThrows Example.numeric_phone)
                     Example.numeric_queue) = [Example.numeric_phone]
     ∧ wasessions (exec (Part000.processPendingSessions (λ _, ProviderThrows) [])
                     Example.numeric_queue) = [Example.numeric_phone])
  ∧ (let w := Part000.drive (Example.connects Example.own_id) opened Example.own_id
                Example.own_id_queue in
     runningbots w = [running_for (Example.account "01") "my-session"]
     ∧ activeBots w !! "my-session" = Some 0%nat
     ∧ wasessions w = [Example.own_id]
     ∧ exec (Part000.removeFromPendingSessions (Part000.sessionId_of Example.own_id)) w = w).
Proof. by vm_compute. Qed.

(** ** Which identity the subscription check is made on *)

Ltac any_store :=
  repeat match goal with
         | |- context [match faults ?w with _ => _ end] =>
             let l := fresh "later" in
             destruct (faults w) as [|[] l]; simpl
         | |- context [match ?l with [] => _ | _ :: _ => _ end] =>
             is_var l; destruct l as [|[] ?]; simpl
         | |- context [if existsb ?p ?l then _ else _] => destruct (existsb p l); simpl
         | |- context [if bool_decide ?P then _ else _] => destruct (bool_decide P); simpl
         | |- context [if negb ?b then _ else _] => destruct b; simpl
         | |- context [if nonempty ?s then _ else _] => destruct (nonempty s); simpl
         | |- context [if (?a <=? ?b)%nat then _ else _] => destruct (a <=? b)%nat; simpl
         end.

Ltac unfold_store :=
  unfold Part001.isJidSubscribed, Part000.isJidSubscribed, addToRunningBots,
    addToExpiredJids, getRunningBotsCount,
    Part001.removeFromPendingSessions, Part000.removeFromPendingSessions,
    Part001.createWhatsAppBot, Part000.createWhatsAppBotFromSessionData, createSocket;
  unfold_async;
  unfold wavalidjid_findOne, runningbots_insertOne, runningbots_deleteOne,
    runningbots_countDocuments, wasessions_deleteOne, expiredjid_insertOne,
    db, gets, modify.

Ltac same_queries :=
  unfold auth_queries; simpl; rewrite ?omap_app; simpl; rewrite ?app_nil_r;
  try done; try by rewrite <- ?app_assoc.

Lemma auth_queries_update001 n u w :
  auth_queries (exec (Part001.connection_update n u) w)
  = auth_queries w ++
    match socks w !! n, connection u with
    | Some sk, Some ConnOpen => match sk_user sk with Some jid => [jid] | None => [] end
    | _, _ => []
    end.
Proof.
  unfold exec, Part001.connection_update. unfold bind at 1. unfold gets.
  destruct (socks w !! n) as [sk|]; simpl; [|by rewrite app_nil_r].
  destruct (connection u) as [[]|]; simpl; try by rewrite app_nil_r.
  - destruct (sk_user sk) as [jid|]; simpl; [|by rewrite app_nil_r].
    unfold_store. simpl. any_store. all: same_queries.
  - unfold_store. simpl.
    destruct (shouldReconnect u); simpl; any_store; by rewrite app_nil_r.
Qed.

Lemma auth_queries_update000 n u w :
  auth_queries (exec (Part000.connection_update n u) w) = auth_queries w.
Proof.
  unfold exec, Part000.connection_update. unfold bind at 1. unfold gets.
  destruct (socks w !! n) as [sk|]; simpl; [|done].
  destruct (connection u) as [[]|]; simpl; try done.
  - unfold_store. simpl. any_store. all: same_queries.
  - unfold_store. simpl.
    destruct (shouldReconnect u); simpl; any_store; done.
Qed.

Lemma auth_queries_process001 p session w :
  auth_queries (exec (Part001.processSession p session) w) = auth_queries w.
Proof.
  unfold exec, Part001.processSession, extractPhoneNumber_of. unfold_store. simpl.
  destruct p; simpl; destruct (or_else _ _); simpl; any_store.
  all: same_queries.
Qed.

Lemma auth_queries_process000 p session w :
  auth_queries (exec (Part000.processSession p session) w)
  = auth_queries w ++
    match Part000.extractRemoteJidFromSession session with
    | Some rjid => [rjid]
    | None => []
    end.
Proof.
  unfold exec, Part000.processSession, extractPhoneNumber_of.
  destruct (Part000.extractRemoteJidFromSession session) as [rjid|].
  - unfold_store. simpl.
    destruct p; simpl; destruct (or_else _ _); simpl; any_store.
    all: same_queries.
  - unfold_store. simpl. any_store; by rewrite app_nil_r.
Qed.

(** C2, as the code has it. In part_001 the subscription check is made in the
    open handler, on [sock.user.id], and nowhere else; in part_000 it is made
    in [processSession], before any connection, on the identity read from the
    stored session data, and the handlers make none. *)
Theorem subscription_check_identity :
  (∀ p session w,
     auth_queries (exec (Part001.processSession p session) w) = auth_queries w)
  ∧ (∀ n u w,
       auth_queries (exec (Part001.connection_update n u) w)
       = auth_queries w ++
         match socks w !! n, connection u with
         | Some sk, Some ConnOpen =>
             match sk_user sk with Some jid => [jid] | None => [] end
         | _, _ => []
         end)
  ∧ (∀ p session w,
       auth_queries (exec (Part000.processSession p session) w)
       = auth_queries w ++
         match Part000.extractRemoteJidFromSession session with
         | Some rjid => [rjid]
         | None => []
         end)
  ∧ (∀ n u w,
       auth_queries (exec (Part000.connection_update n u) w) = auth_queries w).
Proof.
  split; [exact auth_queries_process001|].
  split; [exact auth_queries_update001|].
  split; [exact auth_queries_process000|exact auth_queries_update000].
Qed.

(** In part_000 the forged record is checked on the account its stored
    history names, and admitted, though the only socket belongs to another
    account. *)
Lemma part000_checks_the_stored_identity :
  ¬ checks_confirmed_identity_only
      (exec (Part000.processSession (ProviderSock (me_id Example.forged)) Example.forged)
         Example.forged_queue).
Proof.
  intros Hclaim.
  destruct (Hclaim (Example.account "01")) as (n & sk & Hsk & Huser).
  - vm_compute. left.
  - destruct n as [|n]; vm_compute in Hsk; [|done].
    injection Hsk as <-. vm_compute in Huser. done.
Qed.

(** ** Rejection of an identity that is not subscribed *)

(** C3, as the code has it. part_000 rejects before any connection: one
    document is added to [expiredjid], for the phone part of the stored
    identity and with the one reason text the scripts have; the pending record
    goes; no socket, handle or [runningbots] row is made. part_001 rejects in
    the open handler: the notice is sent, the socket is ended, its handle and
    the pending record go, no [runningbots] row is made, and [expiredjid] is
    left as it was. *)
Theorem unauthorized_identity_is_rejected w :
  faults w = [] →
  (∀ p session rjid,
     Part000.extractRemoteJidFromSession session = Some rjid →
     List.find (λ d, bool_decide (f_Jid d = Some rjid)) (wavalidjid w) = None →
     new_ObjectId (id_toString (_id session)) = Ok (_id session) →
     let w' := exec (Part000.processSession p session) w in
     expiredjid w' = expiredjid w ++ [expired_for (extractPhoneNumber rjid)]
     ∧ wasessions w' = delete_first (by__id (_id session)) (wasessions w)
     ∧ runningbots w' = runningbots w
     ∧ socks w' = socks w
     ∧ activeBots w' = activeBots w)
  ∧ (∀ n sk jid u,
       socks w !! n = Some sk →
       sk_user sk = Some jid →
       connection u = Some ConnOpen →
       List.find (λ d, bool_decide (f_jid d = Some jid)) (wavalidjid w) = None →
       let w' := exec (Part001.connection_update n u) w in
       expiredjid w' = expiredjid w
       ∧ wasessions w' = delete_first (by_sessionId (sk_sessionId sk)) (wasessions w)
       ∧ runningbots w' = runningbots w
       ∧ activeBots w' !! sk_sessionId sk = None
       ∧ socks w' !! n = Some (ended sk)
       ∧ Sent n jid Part001.msg_not_subscribed ∈ trace w').
Proof.
  intros Hf. split.
  - intros p session rjid He Hsub Hid. unfold exec.
    rewrite (process000_unsubscribed w Hf p session rjid He Hsub). simpl.
    by rewrite (pending_query_of_ObjectId session Hid).
  - intros n sk jid u Hsk Hu Hc Hsub. unfold exec.
    rewrite (open001_unsubscribed w Hf n sk u jid Hsk Hu Hc Hsub). simpl.
    repeat split.
    + apply lookup_delete_eq.
    + rewrite list_lookup_alter_eq, Hsk. done.
    + set_solver.
Qed.

Lemma unauthorized_identity_is_rejected_witness :
  expiredjid (exec (Part000.processSession ProviderThrows (Example.pending "01"))
                Example.nobody_subscribed)
  = [expired_for "254700000001"]
  ∧ expiredjid (exec (Part001.connection_update 0 opened)
                  (exec (Part001.processSession (Example.connects (Example.pending "01"))
                           (Example.pending "01"))
                     Example.nobody_subscribed))
    = [].
Proof.
  split.
  - destruct (unauthorized_identity_is_rejected Example.nobody_subscribed eq_refl)
      as [H000 _].
    destruct (H000 ProviderThrows (Example.pending "01") (Example.account "01")
                eq_refl eq_refl eq_refl) as (He & _).
    exact He.
  - destruct (unauthorized_identity_is_rejected
                (exec (Part001.processSession (Example.connects (Example.pending "01"))
                         (Example.pending "01"))
                   Example.nobody_subscribed) eq_refl) as [_ H001].
    destruct (H001 0%nat (new_sock "s01" "" (Some (Example.account "01")))
                (Example.account "01") opened eq_refl eq_refl eq_refl eq_refl)
      as (He & _).
    exact He.
Defined.

(** In part_001 a rejected identity leaves [expiredjid] empty: the pending
    record is gone and no row is made, but no document, with any reason, is
    written. *)
Lemma part001_rejection_writes_no_expired_record :
  let w' := Part001.drive (Example.connects (Example.pending "01")) opened
              (Example.pending "01") Example.nobody_subscribed in
  wasessions w' = [] ∧ runningbots w' = []
  ∧ ¬ (∃ d, d ∈ expiredjid w' ∧ e_reason d = "not-authorized").
Proof.
  vm_compute. repeat split. intros (d & Hd & _). by apply elem_of_nil in Hd.
Qed.

(** ** The close of a connection *)

(** C4, as the code has it. On a close event the handle leaves [activeBots],
    the pending record is removed again, and no socket is made (nothing
    reconnects). When the status code is [loggedOut] and the phone part of
    the identity is not empty, one document is added to [expiredjid], with the
    one reason text the scripts have; otherwise none is. part_000 also removes
    the [runningbots] row of the identity. *)
Theorem connection_close_is_final w n sk u :
  faults w = [] →
  socks w !! n = Some sk →
  connection u = Some ConnClose →
  (let w' := exec (Part000.connection_update n u) w in
   let phone := extractPhoneNumber (sk_remoteJid sk) in
   expiredjid w'
   = expiredjid w ++ (if bool_decide (statusCode u = Some loggedOut) && nonempty phone
                      then [expired_for phone] else [])
   ∧ activeBots w' = delete (sk_sessionId sk) (activeBots w)
   ∧ runningbots w' = delete_first (by_jid (sk_remoteJid sk)) (runningbots w)
   ∧ (NoDup (r_jid <$> runningbots w) →
      ∀ d, d ∈ runningbots w' → r_jid d ≠ sk_remoteJid sk)
   ∧ wasessions w'
     = delete_first (Part000.pending_query (sk_sessionId sk)) (wasessions w)
   ∧ socks w' = socks w ∧ trace w' = trace w)
  ∧ (let w' := exec (Part001.connection_update n u) w in
     let phone := extractPhoneNumber (default "" (sk_user sk)) in
     expiredjid w'
     = expiredjid w ++ (if bool_decide (statusCode u = Some loggedOut) && nonempty phone
                        then [expired_for phone] else [])
     ∧ activeBots w' = delete (sk_sessionId sk) (activeBots w)
     ∧ wasessions w' = delete_first (by_sessionId (sk_sessionId sk)) (wasessions w)
     ∧ socks w' = socks w ∧ trace w' = trace w).
Proof.
  intros Hf Hsk Hc. split.
  - unfold exec. rewrite (close000 w Hf n sk u Hsk Hc). simpl.
    unfold shouldReconnect. rewrite negb_involutive.
    destruct (_ && _); simpl; rewrite ?app_nil_r; repeat split; try done.
    all: intros Hnd; by apply (delete_first_unique r_jid).
  - unfold exec. rewrite (close001 w Hf n sk u Hsk Hc). simpl.
    unfold shouldReconnect. rewrite negb_involutive.
    destruct (_ && _); simpl; rewrite ?app_nil_r; repeat split; done.
Qed.

Lemma connection_close_is_final_witness :
  runningbots (exec (Part000.connection_update 0 (closed (Some loggedOut)))
                 Example.active000) = []
  ∧ activeBots (exec (Part001.connection_update 0 (closed (Some loggedOut)))
                  Example.active001) = ∅.
Proof.
  split.
  - destruct (connection_close_is_final Example.active000 0%nat
                (new_sock "65f0c0ffee0123456789ab01" (Example.account "01")
                   (Some (Example.account "01")))
                (closed (Some loggedOut)) eq_refl eq_refl eq_refl)
      as [(_ & _ & Hrows & _) _].
    rewrite Hrows. reflexivity.
  - destruct (connection_close_is_final Example.active001 0%nat
                (new_sock "s01" "" (Some (Example.account "01")))
                (closed (Some loggedOut)) eq_refl eq_refl eq_refl)
      as [_ (_ & Hbots & _)].
    rewrite Hbots. apply map_eq. intros i. vm_compute. by destruct i.
Defined.

(** The document written on a logged-out close carries the one reason text
    of [addToExpiredJids], not a reason of its own. *)
Lemma logged_out_close_has_no_reason_of_its_own :
  let w' := exec (Part000.connection_update 0 (closed (Some loggedOut)))
              Example.active000 in
  expiredjid w' = [{| e_phoneNumber := "254700000001";
                      e_reason := "Invalid or expired session" |}]
  ∧ ¬ (∃ d, d ∈ expiredjid w' ∧ e_reason d = "logged-out").
Proof.
  vm_compute. split; [done|].
  intros (d & Hd & Hr). apply list_elem_of_singleton in Hd. subst d. done.
Qed.

(** ** The cap and the two registers, as the scripts run *)

(** C1, on the code. The gate reads the number of [runningbots] rows before
    each record, but a row is only written by the open handler, which does not
    look at the cap. When no connection has opened by the time the pass is
    over, the pass lets all sixteen records of the example queue through, and
    the sixteen open events then write sixteen rows: more than [MAX_BOTS], in
    either script. *)
Theorem cap_exceeded_when_connections_open_late :
  (let after_pass := exec (Part001.processPendingSessions Example.connects [])
                       Example.queue16 in
   List.length (runningbots after_pass) = 0%nat
   ∧ List.length (socks after_pass) = 16%nat
   ∧ List.length (runningbots (Part001.deliver Example.opens_late after_pass)) = 16%nat)
  ∧ (let after_pass := exec (Part000.processPendingSessions Example.connects [])
                         Example.queue16 in
     List.length (runningbots after_pass) = 0%nat
     ∧ List.length (socks after_pass) = 16%nat
     ∧ List.length (runningbots (Part000.deliver Example.opens_late after_pass)) = 16%nat)
  ∧ (MAX_BOTS < 16)%nat.
Proof.
  split; [by vm_compute|]. split; [by vm_compute|]. rewrite MAX_BOTS_eq. lia.
Qed.

(** C7, on the code. In part_001 a worker that opened has a handle in
    [activeBots] and a row in [runningbots]; when its connection closes the
    handle goes and the row stays. *)
Theorem running_row_outlives_its_handle :
  activeBots Example.active001 !! "s01" = Some 0%nat
  ∧ runningbots Example.active001 = [Example.row "01"]
  ∧ (let w' := exec (Part001.connection_update 0 (closed None))
                 Example.active001 in
     activeBots w' !! "s01" = None
     ∧ runningbots w' = [Example.row "01"]).
Proof. by vm_compute. Qed.

(** ** One pass of the scheduler loop *)

Lemma getRunningBotsCount_frame w c w' :
  getRunningBotsCount w = (Ok c, w') →
  wasessions w' = wasessions w ∧ expiredjid w' = expiredjid w
  ∧ runningbots w' = runningbots w ∧ activeBots w' = activeBots w
  ∧ socks w' = socks w.
Proof.
  unfold getRunningBotsCount, try_catch, runningbots_countDocuments, db, gets, ret.
  destruct (faults w) as [|[] later]; intros [= _ <-]; done.
Qed.

Lemma drain_stops ps cu prov session rest sched w c w' :
  getRunningBotsCount w = (Ok c, w') →
  (MAX_BOTS ≤ c)%nat →
  drain ps cu prov (session :: rest) sched w = (Ok tt, w').
Proof.
  intros Hcount Hle. simpl. unfold bind at 1. rewrite Hcount.
  by rewrite (proj2 (Nat.leb_le _ _) Hle).
Qed.

Lemma existsb_by_jid_snoc jid jid' sid rows :
  existsb (by_jid jid') rows = false → jid ≠ jid' →
  existsb (by_jid jid') (rows ++ [running_for jid sid]) = false.
Proof.
  intros Hrows Hne. rewrite existsb_app, Hrows. simpl.
  unfold by_jid, has_key. simpl. by rewrite bool_decide_eq_false_2.
Qed.

Section PromptPass001.

Variable prov : Session → ProviderOutcome.

Lemma drain001_prompt l :
  ∀ w pending_rest snapshot_rest sched_rest,
    faults w = [] →
    wasessions w = l ++ pending_rest →
    (∀ s, s ∈ l → admissible001 prov w s) →
    NoDup ((identity ∘ prov) <$> l) →
    (List.length (runningbots w) + List.length l ≤ MAX_BOTS)%nat →
    ∃ w',
      Part001.drain prov (l ++ snapshot_rest)
        (prompt_from (List.length (socks w)) (List.length l) ++ sched_rest) w
      = Part001.drain prov snapshot_rest sched_rest w'
      ∧ faults w' = []
      ∧ wasessions w' = pending_rest
      ∧ List.length (runningbots w') = (List.length (runningbots w) + List.length l)%nat
      ∧ expiredjid w' = expiredjid w.
Proof.
  induction l as [|s l IH]; intros w pr sr schr Hf Hw Hadm Hnd Hcap.
  { exists w. simpl. rewrite Nat.add_0_r. done. }
  destruct (Hadm s) as (jid & Hp & Hsub & Hrow); [left|].
  simpl in Hcap.
  assert (List.length (runningbots w) < MAX_BOTS)%nat as Hlt by lia.
  set (w1 := emit (SockCreated (List.length (socks w)))
               (set_socks (λ l, l ++ [new_sock (sessionId s) "" (Some jid)]) w)).
  assert (socks w1 !! List.length (socks w)
          = Some (new_sock (sessionId s) "" (Some jid))) as Hsk.
  { subst w1. simpl. by rewrite lookup_app_r, Nat.sub_diag. }
  pose proof (open001_subscribed w1 Hf _ _ opened jid Hsk eq_refl eq_refl Hsub) as Hopen.
  simpl in Hopen. rewrite Hrow in Hopen.
  match type of Hopen with _ = (_, ?x) => set (w2 := x) in * end.
  destruct (IH w2 pr sr schr) as (w' & Hdrain & Hf' & Hw' & Hrows' & Hexp').
  - done.
  - subst w2. simpl. rewrite Hw. simpl. unfold by_sessionId, has_key at 1.
    by rewrite bool_decide_eq_true_2.
  - intros s' Hs'. destruct (Hadm s') as (jid' & Hp' & Hsub' & Hrow'); [by right|].
    exists jid'. split; [done|]. split; [done|]. subst w2. simpl.
    apply existsb_by_jid_snoc; [done|]. intros ->.
    apply NoDup_cons in Hnd as [Hnotin _]. apply Hnotin.
    apply list_elem_of_fmap. exists s'. split; [|done]. simpl. by rewrite Hp, Hp'.
  - by apply NoDup_cons in Hnd as [_ Hnd].
  - subst w2. simpl. rewrite length_app. simpl. lia.
  - exists w'. split; [|split; [done|split; [done|split]]].
    + rewrite <- Hdrain. unfold Part001.drain. simpl. unfold bind at 1.
      rewrite getRunningBotsCount_answers by done.
      rewrite (proj2 (Nat.leb_gt _ _) Hlt).
      unfold bind at 1. rewrite Hp.
      rewrite (process001_admits w Hf (Some jid) s Hlt). fold w1.
      unfold bind at 1. unfold modify at 1. simpl.
      unfold exec. rewrite Hopen. simpl.
      unfold prompt_from. rewrite length_app. simpl. by rewrite Nat.add_1_r.
    + rewrite Hrows'. subst w2. simpl. rewrite length_app. simpl. lia.
    + rewrite Hexp'. by subst w2.
Qed.

End PromptPass001.

Section PromptPass000.

Variable prov : Session → ProviderOutcome.

Lemma drain000_prompt l :
  ∀ w pending_rest snapshot_rest sched_rest,
    faults w = [] →
    wasessions w = l ++ pending_rest →
    (∀ s, s ∈ l → admissible000 prov w s) →
    NoDup (Part000.extractRemoteJidFromSession <$> l) →
    (List.length (runningbots w) + List.length l ≤ MAX_BOTS)%nat →
    ∃ w',
      Part000.drain prov (l ++ snapshot_rest)
        (prompt_from (List.length (socks w)) (List.length l) ++ sched_rest) w
      = Part000.drain prov snapshot_rest sched_rest w'
      ∧ faults w' = []
      ∧ wasessions w' = pending_rest
      ∧ List.length (runningbots w') = (List.length (runningbots w) + List.length l)%nat
      ∧ expiredjid w' = expiredjid w.
Proof.
  induction l as [|s l IH]; intros w pr sr schr Hf Hw Hadm Hnd Hcap.
  { exists w. simpl. rewrite Nat.add_0_r. done. }
  destruct (Hadm s) as (rjid & He & Hsub & Hrow & Hid & user & Hp); [left|].
  simpl in Hcap.
  assert (List.length (runningbots w) < MAX_BOTS)%nat as Hlt by lia.
  set (w1 := emit (SockCreated (List.length (socks w)))
               (set_socks (λ l, l ++ [new_sock (Part000.sessionId_of s) rjid user])
                  (emit (AuthQuery rjid) w))).
  assert (socks w1 !! List.length (socks w)
          = Some (new_sock (Part000.sessionId_of s) rjid user)) as Hsk.
  { subst w1. simpl. by rewrite lookup_app_r, Nat.sub_diag. }
  pose proof (open000 w1 Hf _ _ opened Hsk eq_refl) as Hopen.
  simpl in Hopen. rewrite Hrow, (pending_query_of_ObjectId s Hid) in Hopen.
  match type of Hopen with _ = (_, ?x) => set (w2 := x) in * end.
  destruct (IH w2 pr sr schr) as (w' & Hdrain & Hf' & Hw' & Hrows' & Hexp').
  - done.
  - subst w2. simpl. rewrite Hw. simpl. unfold by__id, has_key at 1.
    by rewrite bool_decide_eq_true_2.
  - intros s' Hs'.
    destruct (Hadm s') as (rjid' & He' & Hsub' & Hrow' & Hid' & Hp'); [by right|].
    exists rjid'. split; [done|]. split; [done|]. split; [|done]. subst w2. simpl.
    apply existsb_by_jid_snoc; [done|]. intros ->.
    apply NoDup_cons in Hnd as [Hnotin _]. apply Hnotin.
    apply list_elem_of_fmap. exists s'. split; [|done]. by rewrite He, He'.
  - by apply NoDup_cons in Hnd as [_ Hnd].
  - subst w2. simpl. rewrite length_app. simpl. lia.
  - exists w'. split; [|split; [done|split; [done|split]]].
    + rewrite <- Hdrain. unfold Part000.drain. simpl. unfold bind at 1.
      rewrite getRunningBotsCount_answers by done.
      rewrite (proj2 (Nat.leb_gt _ _) Hlt).
      unfold bind at 1. rewrite Hp.
      rewrite (process000_admits w Hf user s rjid He Hsub Hlt). fold w1.
      unfold bind at 1. unfold modify at 1. simpl.
      unfold exec. rewrite Hopen. simpl.
      unfold prompt_from. rewrite length_app. simpl. by rewrite Nat.add_1_r.
    + rewrite Hrows'. subst w2. simpl. rewrite length_app. simpl. lia.
    + rewrite Hexp'. by subst w2.
Qed.

End PromptPass000.

Lemma prompt_from_S k n :
  prompt_from k (S n) = prompt_from k n ++ prompt_from (k + n) 1.
Proof.
  unfold prompt_from. replace (S n) with (n + 1)%nat by lia.
  by rewrite seq_app, fmap_app.
Qed.

Lemma split_last_of_16 {A} (l : list A) :
  List.length l = S MAX_BOTS →
  ∃ last, l = take MAX_BOTS l ++ [last] ∧ drop MAX_BOTS l = [last].
Proof.
  intros Hl. pose proof (take_drop MAX_BOTS l) as Htd.
  destruct (drop MAX_BOTS l) as [|last [|]] eqn:Hd.
  - apply (f_equal List.length) in Hd. rewrite length_drop, Hl in Hd. simpl in Hd. lia.
  - exists last. by rewrite Htd.
  - apply (f_equal List.length) in Hd. rewrite length_drop, Hl in Hd. simpl in Hd. lia.
Qed.

(** The pass when every connection opens in time. When the count taken
    before a record is [MAX_BOTS] or more, the loop ends there: it returns
    with the collections, the handles and the sockets as they are, so the
    record and all that follow it in the snapshot stay in [wasessions] and
    nothing is written for them. And a pass over sixteen pending records,
    none running, every record subscribed under its own identity and every
    connection opening during the pause after its record, ends with fifteen
    [runningbots] rows and the sixteenth record alone in [wasessions], with
    nothing added to [expiredjid]; in either script. The schedule is a
    proviso the scripts do not enforce: the theorem that follows takes
    another. *)
Theorem pass_stops_at_the_cap_and_defers :
  (∀ processSession connection_update prov session rest sched w c w',
     getRunningBotsCount w = (Ok c, w') →
     (MAX_BOTS ≤ c)%nat →
     drain processSession connection_update prov (session :: rest) sched w = (Ok tt, w')
     ∧ wasessions w' = wasessions w ∧ expiredjid w' = expiredjid w
     ∧ runningbots w' = runningbots w ∧ activeBots w' = activeBots w
     ∧ socks w' = socks w)
  ∧ (∀ prov w,
       faults w = [] →
       List.length (wasessions w) = 16%nat →
       runningbots w = [] →
       socks w = [] →
       (∀ s, s ∈ wasessions w → admissible001 prov w s) →
       NoDup ((identity ∘ prov) <$> wasessions w) →
       let w' := exec (Part001.processPendingSessions prov (prompt_from 0 16)) w in
       List.length (runningbots w') = 15%nat
       ∧ wasessions w' = drop 15 (wasessions w)
       ∧ List.length (wasessions w') = 1%nat
       ∧ expiredjid w' = expiredjid w)
  ∧ (∀ prov w,
       faults w = [] →
       List.length (wasessions w) = 16%nat →
       runningbots w = [] →
       socks w = [] →
       (∀ s, s ∈ wasessions w → admissible000 prov w s) →
       NoDup (Part000.extractRemoteJidFromSession <$> wasessions w) →
       let w' := exec (Part000.processPendingSessions prov (prompt_from 0 16)) w in
       List.length (runningbots w') = 15%nat
       ∧ wasessions w' = drop 15 (wasessions w)
       ∧ List.length (wasessions w') = 1%nat
       ∧ expiredjid w' = expiredjid w).
Proof.
  split; [|split].
  - intros ps cu prov session rest sched w c w' Hcount Hle.
    split; [by eapply drain_stops|by eapply getRunningBotsCount_frame].
  - intros prov w Hf Hlen Hrun Hsocks Hadm Hnd.
    destruct (split_last_of_16 (wasessions w)) as (last & Hsplit & Hdrop);
      [by rewrite Hlen, MAX_BOTS_eq|].
    rewrite MAX_BOTS_eq in Hsplit, Hdrop.
    destruct (drain001_prompt prov (take 15 (wasessions w)) w [last] [last]
                (prompt_from 15 1)) as (w1 & Hdrain & Hf1 & Hw1 & Hrows1 & Hexp1).
    + done.
    + done.
    + intros s Hs. apply Hadm. rewrite Hsplit. apply elem_of_app. by left.
    + rewrite Hsplit, fmap_app in Hnd. by apply NoDup_app in Hnd as [Hnd _].
    + rewrite Hrun, length_take, Hlen, MAX_BOTS_eq. simpl. lia.
    + assert (prompt_from (List.length (socks w))
                (List.length (take 15 (wasessions w))) ++ prompt_from 15 1
              = prompt_from 0 16) as Hsched
        by (rewrite Hsocks, length_take, Hlen; reflexivity).
      rewrite Hsched, <- Hsplit in Hdrain.
      unfold Part001.drain in Hdrain.
      rewrite (drain_stops _ _ prov last [] (prompt_from 15 1) w1 _ w1
                 (getRunningBotsCount_answers w1 Hf1)) in Hdrain.
      2:{ rewrite Hrows1, Hrun, length_take, Hlen, MAX_BOTS_eq. simpl. lia. }
      intros w'. subst w'. unfold exec, Part001.processPendingSessions,
        processPendingSessions, try_catch, bind, wasessions_toArray.
      rewrite db_answers by done. unfold gets. rewrite Hlen. simpl.
      rewrite Hdrain. simpl. rewrite Hw1, Hrows1, Hexp1, Hdrop, Hrun, length_take, Hlen.
      done.
  - intros prov w Hf Hlen Hrun Hsocks Hadm Hnd.
    destruct (split_last_of_16 (wasessions w)) as (last & Hsplit & Hdrop);
      [by rewrite Hlen, MAX_BOTS_eq|].
    rewrite MAX_BOTS_eq in Hsplit, Hdrop.
    destruct (drain000_prompt prov (take 15 (wasessions w)) w [last] [last]
                (prompt_from 15 1)) as (w1 & Hdrain & Hf1 & Hw1 & Hrows1 & Hexp1).
    + done.
    + done.
    + intros s Hs. apply Hadm. rewrite Hsplit. apply elem_of_app. by left.
    + rewrite Hsplit, fmap_app in Hnd. by apply NoDup_app in Hnd as [Hnd _].
    + rewrite Hrun, length_take, Hlen, MAX_BOTS_eq. simpl. lia.
    + assert (prompt_from (List.length (socks w))
                (List.length (take 15 (wasessions w))) ++ prompt_from 15 1
              = prompt_from 0 16) as Hsched
        by (rewrite Hsocks, length_take, Hlen; reflexivity).
      rewrite Hsched, <- Hsplit in Hdrain.
      unfold Part000.drain in Hdrain.
      rewrite (drain_stops _ _ prov last [] (prompt_from 15 1) w1 _ w1
                 (getRunningBotsCount_answers w1 Hf1)) in Hdrain.
      2:{ rewrite Hrows1, Hrun, length_take, Hlen, MAX_BOTS_eq. simpl. lia. }
      intros w'. subst w'. unfold exec, Part000.processPendingSessions,
        processPendingSessions, try_catch, bind, wasessions_toArray.
      rewrite db_answers by done. unfold gets. rewrite Hlen. simpl.
      rewrite Hdrain. simpl. rewrite Hw1, Hrows1, Hexp1, Hdrop, Hrun, length_take, Hlen.
      done.
Qed.

Lemma pass_stops_at_the_cap_and_defers_witness :
  drain Part001.processSession Part001.connection_update Example.connects
    [Example.pending "16"] [] Example.full
  = (Ok tt, Example.full)
  ∧ List.length (runningbots
       (exec (Part001.processPendingSessions Example.connects (prompt_from 0 16))
          Example.queue16)) = 15%nat
  ∧ List.length (runningbots
       (exec (Part000.processPendingSessions Example.connects (prompt_from 0 16))
          Example.queue16)) = 15%nat.
Proof.
  destruct pass_stops_at_the_cap_and_defers as (Hstop & H001 & H000).
  split; [|split].
  - apply (Hstop _ _ _ _ _ _ Example.full 15%nat Example.full); [reflexivity|].
    rewrite MAX_BOTS_eq. lia.
  - apply (H001 Example.connects Example.queue16); try reflexivity.
    + intros s Hs. simpl in Hs. unfold Example.names in Hs. simpl in Hs.
      repeat (apply elem_of_cons in Hs as [-> | Hs]);
        try (eexists; split; [reflexivity|]; split; [vm_compute; eauto|reflexivity]).
      by apply elem_of_nil in Hs.
    + apply (bool_decide_unpack _). vm_compute. exact I.
  - apply (H000 Example.connects Example.queue16); try reflexivity.
    + intros s Hs. simpl in Hs. unfold Example.names in Hs. simpl in Hs.
      repeat (apply elem_of_cons in Hs as [-> | Hs]);
        try (eexists; split; [reflexivity|]; split; [vm_compute; eauto|];
             split; [reflexivity|]; split; [reflexivity|]; eexists; reflexivity).
      by apply elem_of_nil in Hs.
    + apply (bool_decide_unpack _). vm_compute. exact I.
Defined.

(** C5, on the code. Sixteen pending records, none running, every record
    subscribed and every connection succeeding; the connections of the last
    two records open after the pass instead of during the pause after their
    record. The count taken before the fifteenth and before the sixteenth
    record is fourteen, so the loop never stops: the pass makes sixteen
    sockets and ends with fourteen rows and two records pending, and when the
    two connections have opened there are sixteen rows and no record is
    pending; never fifteen running and one deferred. In either script. *)
Theorem all_sixteen_admitted_when_two_connections_open_late :
  (let after_pass := exec (Part001.processPendingSessions Example.connects
                             Example.two_open_late) Example.queue16 in
   let settled := Part001.deliver Example.last_two_open after_pass in
   List.length (socks after_pass) = 16%nat
   ∧ List.length (runningbots after_pass) = 14%nat
   ∧ List.length (wasessions after_pass) = 2%nat
   ∧ List.length (runningbots settled) = 16%nat
   ∧ wasessions settled = []
   ∧ expiredjid settled = [])
  ∧ (let after_pass := exec (Part000.processPendingSessions Example.connects
                               Example.two_open_late) Example.queue16 in
     let settled := Part000.deliver Example.last_two_open after_pass in
     List.length (socks after_pass) = 16%nat
     ∧ List.length (runningbots after_pass) = 14%nat
     ∧ List.length (wasessions after_pass) = 2%nat
     ∧ List.length (runningbots settled) = 16%nat
     ∧ wasessions settled = []
     ∧ expiredjid settled = [])
  ∧ (MAX_BOTS < 16)%nat.
Proof.
  split; [by vm_compute|]. split; [by vm_compute|]. rewrite MAX_BOTS_eq. lia.
Qed.

(** ** Submitting an identifier twice *)

Lemma filter_none_of_existsb {A} (p : A → bool) (l : list A) :
  existsb p l = false → List.filter p l = [].
Proof.
  induction l as [|x l IH]; simpl; [done|].
  destruct (p x); simpl; [done|]. exact IH.
Qed.

Lemma existsb_of_find_none {A} (p : A → bool) (l : list A) :
  List.find p l = None → existsb p l = false.
Proof.
  induction l as [|x l IH]; simpl; [done|].
  destruct (p x); simpl; [done|]. exact IH.
Qed.

Lemma filter_snoc_only {A} (p : A → bool) (l : list A) x :
  existsb p l = false → p x = true → List.length (List.filter p (l ++ [x])) = 1%nat.
Proof.
  intros Hl Hx. rewrite List.filter_app, (filter_none_of_existsb p l Hl). simpl.
  by rewrite Hx.
Qed.

Lemma find_snoc_hit {A} (p : A → bool) (l : list A) x :
  p x = true → is_Some (List.find p (l ++ [x])).
Proof.
  intros Hx. induction l as [|y l IH]; simpl.
  - rewrite Hx. eauto.
  - destruct (p y); eauto.
Qed.

(** C8, as the code has it. With the unique index of setup.js on
    [wasessions.sessionId] and the store answering: once a submission of an
    identifier has been accepted, a second [/add-session] for it is refused by
    the store (duplicate key, answered with status 500), and a second
    [/upload-session] for it is refused by the endpoint's own look-up
    (status 400, no insert is tried); either way [wasessions] is left as it
    was, holding exactly one record of that identifier. *)
Theorem duplicate_submission_is_refused w sid :
  faults w = [] →
  sessionId_index w = true →
  (∀ oid1 oid2 body1 body2 w1,
     b_sessionId body1 = Some sid →
     b_sessionId body2 = Some sid →
     add_session oid1 body1 w = (Ok (Json 200 "Session added to queue"), w1) →
     add_session oid2 body2 w1 = (Ok (ErrorThrown 500 DuplicateKey), w1)
     ∧ List.length (List.filter (by_sessionId sid) (wasessions w1)) = 1%nat)
  ∧ (∀ oid1 oid2 body1 body2 sessionData1 w1,
       b_sessionId body1 = Some sid →
       b_sessionId body2 = Some sid →
       b_sessionData body1 = Some sessionData1 →
       sd_sessionId sessionData1 = None →
       is_Some (b_sessionData body2) →
       upload_session oid1 body1 w
       = (Ok (Json 200 "Session uploaded successfully and added to processing queue"), w1) →
       upload_session oid2 body2 w1 = (Ok (ErrorJson 400 "Session ID already exists"), w1)
       ∧ List.length (List.filter (by_sessionId sid) (wasessions w1)) = 1%nat).
Proof.
  intros Hf Hidx. split.
  - intros oid1 oid2 body1 body2 w1 Hb1 Hb2.
    unfold add_session, try_catch, bind, wasessions_insertOne.
    rewrite Hb1, Hb2. simpl. destruct (nonempty sid) eqn:Hne; simpl; [|done].
    rewrite db_answers by done. rewrite Hidx. simpl.
    destruct (existsb (by__id (ObjectId oid1)) (wasessions w)); simpl; [done|].
    destruct (existsb (by_sessionId sid) (wasessions w)) eqn:Hnew; simpl; [done|].
    intros [= <-]. unfold db. simpl. rewrite Hf, Hidx. simpl.
    assert (by_sessionId sid
              {| _id := ObjectId oid1; sessionId := sid;
                 phoneNumber := b_phoneNumber body1;
                 processedHistoryMessages := []; me_id := None |} = true) as Hhit
      by (unfold by_sessionId, has_key; simpl; by rewrite bool_decide_eq_true_2).
    rewrite (existsb_app (by_sessionId sid)). simpl. rewrite Hhit.
    rewrite orb_true_r, orb_true_r. simpl. split; [done|].
    by apply filter_snoc_only.
  - intros oid1 oid2 body1 body2 sd1 w1 Hb1 Hb2 Hsd1 Hsid1 [sd2 Hsd2].
    unfold upload_session, try_catch, bind, wasessions_findOne, wasessions_insertOne.
    rewrite Hb1, Hb2, Hsd1, Hsd2. simpl. destruct (nonempty sid) eqn:Hne; simpl; [|done].
    rewrite db_answers by done. unfold gets.
    destruct (List.find (by_sessionId sid) (wasessions w)) as [d|] eqn:Hfind; simpl.
    { done. }
    rewrite db_answers by done. rewrite Hidx, Hsid1. simpl.
    destruct (existsb _ (wasessions w) || existsb (by_sessionId sid) (wasessions w));
      simpl; [done|].
    intros [= <-]. unfold db. simpl. rewrite Hf.
    match goal with
    | |- context [wasessions w ++ [?doc]] =>
        assert (by_sessionId sid doc = true) as Hhit
          by (unfold by_sessionId, has_key; simpl; by rewrite bool_decide_eq_true_2)
    end.
    rewrite bool_decide_eq_true_2 by (by apply find_snoc_hit).
    split; [done|]. apply filter_snoc_only; [|done].
    by apply existsb_of_find_none.
Qed.

Lemma duplicate_submission_is_refused_witness :
  add_session "65f0c0ffee0123456789ac02" Example.body_s1
    (exec (add_session "65f0c0ffee0123456789ac01" Example.body_s1) Example.empty_store)
  = (Ok (ErrorThrown 500 DuplicateKey),
     exec (add_session "65f0c0ffee0123456789ac01" Example.body_s1) Example.empty_store)
  ∧ upload_session "65f0c0ffee0123456789ac02" Example.body_s1
      (exec (upload_session "65f0c0ffee0123456789ac01" Example.body_s1) Example.empty_store)
    = (Ok (ErrorJson 400 "Session ID already exists"),
       exec (upload_session "65f0c0ffee0123456789ac01" Example.body_s1) Example.empty_store).
Proof.
  destruct (duplicate_submission_is_refused Example.empty_store "s1" eq_refl eq_refl)
    as [Hadd Hupload].
  split.
  - apply (Hadd "65f0c0ffee0123456789ac01" "65f0c0ffee0123456789ac02"
             Example.body_s1 Example.body_s1); reflexivity.
  - apply (Hupload "65f0c0ffee0123456789ac01" "65f0c0ffee0123456789ac02"
             Example.body_s1 Example.body_s1 Example.creds_s1);
      try reflexivity.
    simpl. eauto.
Defined.

(** The second [/upload-session] of an identifier is answered by the
    endpoint, with status 400: the store is not asked to insert and raises no
    duplicate-key error. *)
Lemma second_upload_is_refused_by_the_endpoint :
  let w1 := exec (upload_session "65f0c0ffee0123456789ac01" Example.body_s1)
              Example.empty_store in
  (upload_session "65f0c0ffee0123456789ac02" Example.body_s1 w1).1
  = Ok (ErrorJson 400 "Session ID already exists")
  ∧ ¬ (∃ status,
         (upload_session "65f0c0ffee0123456789ac02" Example.body_s1 w1).1
         = Ok (ErrorThrown status DuplicateKey)).
Proof.
  vm_compute. split; [done|]. by intros [status [=]].
Qed.

(** Where setup.js has not been run there is no index, and the second
    [/add-session] is accepted: two records of the identifier. *)
Lemma add_session_twice_without_the_index :
  let w0 := set_sessionId_index false Example.empty_store in
  let w1 := exec (add_session "65f0c0ffee0123456789ac01" Example.body_s1) w0 in
  let w2 := exec (add_session "65f0c0ffee0123456789ac02" Example.body_s1) w1 in
  sessionId <$> wasessions w2 = ["s1"; "s1"].
Proof. by vm_compute. Qed.

Lemma setupDatabase_creates_the_index w :
  faults w = [] →
  NoDup (r_jid <$> runningbots w) →
  NoDup (f_Jid <$> wavalidjid w) →
  NoDup (sessionId <$> wasessions w) →
  sessionId_index (exec setupDatabase w) = true.
Proof.
  intros Hf Hr Hv Hs.
  unfold exec, setupDatabase, try_catch, bind, createIndex_jid, createIndex_valid,
    createIndex_sessionId, db, ret.
  repeat (first [rewrite Hf | rewrite bool_decide_eq_true_2 by done]; simpl).
  reflexivity.
Qed.

(** ** Failures of one record, and the one fatal failure *)

Lemma initMongoDB_returns field w : ∃ b w', initMongoDB field w = (Ok b, w').
Proof.
  unfold initMongoDB, try_catch.
  match goal with |- context [match ?m w with _ => _ end] => destruct (m w) as [[b|e] w'] end;
    eauto.
Qed.






(** What the hypothesis on the declared phone keeps out: a phone that is a
    number has no [split], the [catch] block of [processSession] throws in
    its turn, and the loop is left, before the pending record is removed and
    before the next record is looked at. *)
Lemma numeric_phone_leaves_the_loop :
  let w := set_wasessions (λ _, [Example.numeric_phone; Example.pending "02"])
             Example.queue16 in
  let prov s := if String.eqb (sessionId s) "numeric"
                then ProviderThrows else Example.connects s in
  (Part001.processSession ProviderThrows Example.numeric_phone w).1 = Throw TypeError
  ∧ exec (Part001.processPendingSessions prov (prompt_from 0 2)) w = w.
Proof. by vm_compute. Qed.

(** * More of the code *)

(** ** Relations kept by every step *)

Section Moves.

Context (R : relation World) `{!PreOrder R}.

Lemma moves_ret {A} (a : A) : moves R (ret a).
Proof using Type*. intros w. simpl. reflexivity. Qed.

Lemma moves_throw {A} e : moves R (throw (A:=A) e).
Proof using Type*. intros w. simpl. reflexivity. Qed.

Lemma moves_gets {A} (f : World → A) : moves R (gets f).
Proof using Type*. intros w. simpl. reflexivity. Qed.

Lemma moves_modify f : (∀ w, R w (f w)) → moves R (modify f).
Proof using Type*. intros Hf w. apply Hf. Qed.

Lemma moves_bind {A B} (m : M A) (k : A → M B) :
  moves R m → (∀ a, moves R (k a)) → moves R (bind m k).
Proof using Type*.
  intros Hm Hk w. unfold bind. specialize (Hm w).
  destruct (m w) as [[a|e] w1]; simpl in *; [|done].
  etrans; [exact Hm|apply Hk].
Qed.

Lemma moves_try_catch {A} (m : M A) (h : Err → M A) :
  moves R m → (∀ e, moves R (h e)) → moves R (try_catch m h).
Proof using Type*.
  intros Hm Hh w. unfold try_catch. specialize (Hm w).
  destruct (m w) as [[a|e] w1]; simpl in *; [done|].
  etrans; [exact Hm|apply Hh].
Qed.

Lemma moves_when b m : moves R m → moves R (when b m).
Proof using Type*. intros Hm. destruct b; [done|apply moves_ret]. Qed.

Lemma moves_db {A} (op : M A) :
  (∀ l w, R w (set_faults l w)) → moves R op → moves R (db op).
Proof using Type*.
  intros Hf Hop w. unfold db. destruct (faults w) as [|[] later]; simpl.
  - apply Hop.
  - apply Hf.
  - etrans; [apply (Hf later)|apply Hop].
Qed.

End Moves.

(** The monad's own steps. *)
Ltac step :=
  lazymatch goal with
  | |- moves _ (ret _) => apply moves_ret; apply _
  | |- moves _ (throw _) => apply moves_throw; apply _
  | |- moves _ (gets _) => apply moves_gets; apply _
  | |- moves _ (when _ _) => apply moves_when; [apply _|]
  | |- moves _ (bind _ _) => apply moves_bind; [apply _| |intros ?]
  | |- moves _ (try_catch _ _) => apply moves_try_catch; [apply _| |intros ?]
  | |- moves _ (db _) => apply moves_db; [apply _|apply rel_faults|]
  | |- moves _ (modify _) => apply moves_modify; [apply _|intros ?]
  end.

Section HelperMoves.

Context (R : relation World) `{!HandlerRel R}.

Lemma moves_sendMessage n jid text : moves R (sendMessage n jid text).
Proof using Type*. unfold sendMessage. repeat step. apply rel_emit. Qed.

Lemma moves_addToExpiredJids phone : moves R (addToExpiredJids phone).
Proof using Type*.
  unfold addToExpiredJids, expiredjid_insertOne. repeat step. apply rel_expire.
Qed.

Lemma moves_addToRunningBots jid sid : moves R (addToRunningBots jid sid).
Proof using Type*.
  unfold addToRunningBots, runningbots_insertOne. repeat step.
  intros w. destruct (existsb _ _) eqn:Hrow; simpl; [reflexivity|].
  by apply rel_add_row.
Qed.

Lemma moves_getRunningBotsCount : moves R getRunningBotsCount.
Proof using Type*.
  unfold getRunningBotsCount, runningbots_countDocuments. repeat step.
Qed.

Lemma moves_remove001 sid : moves R (Part001.removeFromPendingSessions sid).
Proof using Type*.
  unfold Part001.removeFromPendingSessions, wasessions_deleteOne. repeat step.
  apply rel_delete_pending.
Qed.

Lemma moves_remove000 sid : moves R (Part000.removeFromPendingSessions sid).
Proof using Type*.
  unfold Part000.removeFromPendingSessions, wasessions_deleteOne. repeat step.
  apply rel_delete_pending.
Qed.

Lemma moves_isJidSubscribed001 jid : moves R (Part001.isJidSubscribed jid).
Proof using Type*.
  unfold Part001.isJidSubscribed, wavalidjid_findOne. repeat step. apply rel_emit.
Qed.

Lemma moves_isJidSubscribed000 jid : moves R (Part000.isJidSubscribed jid).
Proof using Type*.
  unfold Part000.isJidSubscribed, wavalidjid_findOne. repeat step. apply rel_emit.
Qed.

Lemma moves_sock_end n : moves R (sock_end n).
Proof using Type*.
  unfold sock_end. repeat step. etrans; [apply (rel_end n)|apply rel_emit].
Qed.

Lemma moves_unhandle sid : moves R (modify (set_activeBots (delete sid))).
Proof using Type*. repeat step. apply rel_unhandle. Qed.

End HelperMoves.

Ltac helper :=
  lazymatch goal with
  | |- moves _ (sendMessage _ _ _) => apply moves_sendMessage; apply _
  | |- moves _ (addToExpiredJids _) => apply moves_addToExpiredJids; apply _
  | |- moves _ (addToRunningBots _ _) => apply moves_addToRunningBots; apply _
  | |- moves _ getRunningBotsCount => apply moves_getRunningBotsCount; apply _
  | |- moves _ (Part001.removeFromPendingSessions _) => apply moves_remove001; apply _
  | |- moves _ (Part000.removeFromPendingSessions _) => apply moves_remove000; apply _
  | |- moves _ (Part001.isJidSubscribed _) => apply moves_isJidSubscribed001; apply _
  | |- moves _ (Part000.isJidSubscribed _) => apply moves_isJidSubscribed000; apply _
  | |- moves _ (sock_end _) => apply moves_sock_end; apply _
  | |- moves _ (modify (set_activeBots (delete _))) => apply moves_unhandle; apply _
  | |- moves _ (if ?b then _ else _) => destruct b
  | |- moves _ (extractPhoneNumber_of ?v) => unfold extractPhoneNumber_of; destruct v
  | |- _ => step
  end.

Ltac as_moves R :=
  match goal with
  | |- R ?w1 (?m ?w1).2 => generalize w1; change (moves R m)
  end.

Section HandlerMoves.

Context (R : relation World) `{!HandlerRel R}.

Lemma moves_update001 n u : moves R (Part001.connection_update n u).
Proof using Type*.
  intros w. unfold Part001.connection_update. unfold bind at 1. unfold gets.
  destruct (socks w !! n) as [sk|] eqn:Hsk; [|reflexivity].
  destruct (connection u) as [[]|]; simpl; try reflexivity.
  - unfold bind at 1. simpl. destruct (sk_user sk) as [jid|]; simpl; [|reflexivity].
    unfold bind at 1. simpl. unfold bind at 1. unfold modify at 1. simpl.
    etrans; [apply (rel_handle n sk w Hsk)|].
    as_moves R.
    repeat helper.
  - as_moves R.
    repeat helper.
Qed.

Lemma moves_update000 n u : moves R (Part000.connection_update n u).
Proof using Type*.
  intros w. unfold Part000.connection_update. unfold bind at 1. unfold gets.
  destruct (socks w !! n) as [sk|] eqn:Hsk; [|reflexivity].
  destruct (connection u) as [[]|]; simpl; try reflexivity.
  - unfold bind at 1. simpl. unfold bind at 1. unfold modify at 1. simpl.
    etrans; [apply (rel_handle n sk w Hsk)|].
    as_moves R.
    repeat helper.
  - as_moves R.
    unfold runningbots_deleteOne. repeat helper. apply rel_delete_row.
Qed.

Lemma moves_deliver cu es :
  (∀ n u, moves R (cu n u)) → ∀ w, R w (deliver cu es w).
Proof using Type*.
  intros Hcu. unfold deliver. induction es as [|e es IH]; intros w; simpl; [reflexivity|].
  etrans; [|apply IH]. destruct e as [n u|calls]; simpl.
  - apply Hcu.
  - apply rel_faults.
Qed.

Lemma moves_drain ps cu prov snapshot :
  (∀ p s, moves R (ps p s)) → (∀ n u, moves R (cu n u)) →
  ∀ sched, moves R (drain ps cu prov snapshot sched).
Proof using Type*.
  intros Hps Hcu. induction snapshot as [|s rest IH]; intros sched; simpl.
  - step.
  - repeat helper; [apply Hps| |apply IH].
    by apply moves_deliver.
Qed.

Lemma moves_pass ps cu prov sched :
  (∀ p s, moves R (ps p s)) → (∀ n u, moves R (cu n u)) →
  moves R (processPendingSessions ps cu prov sched).
Proof using Type*.
  intros Hps Hcu. unfold processPendingSessions, wasessions_toArray.
  repeat helper. by apply moves_drain.
Qed.

End HandlerMoves.

Section CoreMoves.

Context (R : relation World) `{!CoreRel R}.

Lemma moves_createSocket p sid rjid : moves R (createSocket p sid rjid).
Proof using Type*.
  destruct p as [|user]; simpl; [step|].
  intros w. simpl. etrans; [apply rel_new_sock|apply rel_emit].
Qed.

Lemma moves_process001 p session : moves R (Part001.processSession p session).
Proof using Type*.
  unfold Part001.processSession, Part001.createWhatsAppBot.
  repeat helper. apply moves_createSocket.
Qed.

Lemma moves_process000 p session : moves R (Part000.processSession p session).
Proof using Type*.
  unfold Part000.processSession, Part000.createWhatsAppBotFromSessionData.
  destruct (Part000.extractRemoteJidFromSession session) as [rjid|];
    repeat helper.
  apply moves_createSocket.
Qed.

(** One pass of either script, whatever the store, the provider and the
    sockets do meanwhile. *)
Lemma moves_pass001 prov sched : moves R (Part001.processPendingSessions prov sched).
Proof using Type*.
  apply moves_pass; [apply _|apply moves_process001|apply moves_update001; apply _].
Qed.

Lemma moves_pass000 prov sched : moves R (Part000.processPendingSessions prov sched).
Proof using Type*.
  apply moves_pass; [apply _|apply moves_process000|apply moves_update000; apply _].
Qed.

End CoreMoves.

(** ** Invariants of the pass and of the handlers *)

Lemma existsb_by_jid_false jid rows :
  existsb (by_jid jid) rows = false → jid ∉ r_jid <$> rows.
Proof.
  induction rows as [|d rows IH]; simpl; [intros _ []%elem_of_nil|].
  intros [Hd Hrows]%orb_false_iff [->|Hin]%elem_of_cons.
  - unfold by_jid, has_key in Hd. by rewrite bool_decide_eq_true_2 in Hd.
  - by apply IH.
Qed.

Lemma delete_first_sublist {A} (p : A → bool) (l : list A) :
  delete_first p l `sublist_of` l.
Proof.
  induction l as [|x l IH]; simpl; [done|].
  destruct (p x); [by apply sublist_cons|by apply sublist_skip].
Qed.

Global Instance keeps_preorder (P : World → Prop) : PreOrder (keeps P).
Proof. split; [intros w H; exact H|]. intros w1 w2 w3 H12 H23 H. by apply H23, H12. Qed.

Global Instance rows_unique_handler : HandlerRel (keeps rows_unique).
Proof.
  split; try apply _; unfold keeps, rows_unique; simpl; try done.
  - intros d w Hrow Hnd. rewrite fmap_app. apply NoDup_app. split; [done|].
    split; [|apply NoDup_singleton].
    intros j Hj [->|[]%elem_of_nil]%elem_of_cons.
    by apply (existsb_by_jid_false (r_jid d) (runningbots w)).
  - intros q w Hnd. by apply delete_first_NoDup.
Qed.

Global Instance rows_unique_core : CoreRel (keeps rows_unique).
Proof. split; [apply _|]. intros sk w H. exact H. Qed.

Global Instance handles_sound_handler : HandlerRel (keeps handles_sound).
Proof.
  split; try apply _; unfold keeps, handles_sound; simpl; try done.
  - intros n sk w Hsk Hw sid m. destruct (decide (sk_sessionId sk = sid)) as [<-|Hne].
    + rewrite lookup_insert_eq. intros [= <-]. eauto.
    + rewrite lookup_insert_ne by done. apply Hw.
  - intros sid w Hw sid' m. destruct (decide (sid = sid')) as [<-|Hne].
    + by rewrite lookup_delete_eq.
    + rewrite lookup_delete_ne by done. apply Hw.
  - intros n w Hw sid m Hm. destruct (Hw sid m Hm) as (sk & Hsk & Hsid).
    destruct (decide (n = m)) as [<-|Hne].
    + exists (ended sk). by rewrite list_lookup_alter_eq, Hsk.
    + exists sk. by rewrite list_lookup_alter_ne.
Qed.

Global Instance handles_sound_core : CoreRel (keeps handles_sound).
Proof.
  split; [apply _|]. unfold keeps, handles_sound. simpl.
  intros sk w Hw sid m Hm. destruct (Hw sid m Hm) as (sk' & Hsk & Hsid).
  exists sk'. split; [|done]. by apply lookup_app_l_Some.
Qed.

Global Instance read_only_parts_preorder : PreOrder read_only_parts.
Proof.
  split; [intros w; by split|]. intros w1 w2 w3 [H1 H2] [H3 H4].
  split; congruence.
Qed.

Global Instance read_only_parts_handler : HandlerRel read_only_parts.
Proof. split; try apply _; by unfold read_only_parts. Qed.

Global Instance read_only_parts_core : CoreRel read_only_parts.
Proof. split; [apply _|]. intros sk w. by split. Qed.

Global Instance pending_shrinks_preorder : PreOrder pending_shrinks.
Proof.
  split; [intros w; by unfold pending_shrinks|]. intros w1 w2 w3 H12 H23. unfold pending_shrinks in *.
  by etrans.
Qed.

Global Instance pending_shrinks_handler : HandlerRel pending_shrinks.
Proof.
  split; try apply _; unfold pending_shrinks; simpl; try done.
  intros q w. apply delete_first_sublist.
Qed.

Global Instance pending_shrinks_core : CoreRel pending_shrinks.
Proof. split; [apply _|]. intros sk w. by unfold pending_shrinks. Qed.

Global Instance expired_grows_preorder : PreOrder expired_grows.
Proof.
  split; [intros w; by unfold expired_grows|]. intros w1 w2 w3 H12 H23. unfold expired_grows in *.
  by etrans.
Qed.

Global Instance expired_grows_handler : HandlerRel expired_grows.
Proof.
  split; try apply _; unfold expired_grows; simpl; try done.
  intros d w. by apply prefix_app_r.
Qed.

Global Instance expired_grows_core : CoreRel expired_grows.
Proof. split; [apply _|]. intros sk w. by unfold expired_grows. Qed.

Global Instance same_sockets_preorder : PreOrder same_sockets.
Proof.
  split; [intros w; by split|]. intros w1 w2 w3 [H1 H2] [H3 H4].
  split; [congruence|]. intros n. by rewrite H4, H2.
Qed.

Global Instance same_sockets_handler : HandlerRel same_sockets.
Proof.
  split; try apply _; unfold same_sockets; simpl; try done.
  intros n w. split; [by rewrite length_alter|]. intros m.
  destruct (decide (n = m)) as [<-|Hne].
  - rewrite list_lookup_alter_eq. by destruct (socks w !! n).
  - by rewrite list_lookup_alter_ne.
Qed.

(** X1. At most one [runningbots] row per identity: when the rows have
    distinct [jid]s, they still have after any pass of the scheduler loop and
    after any events, in either script, whichever store calls are rejected,
    whatever the provider answers and whenever the events arrive. *)
Theorem running_rows_stay_unique w :
  rows_unique w →
  (∀ prov sched,
     rows_unique (exec (Part001.processPendingSessions prov sched) w)
     ∧ rows_unique (exec (Part000.processPendingSessions prov sched) w))
  ∧ (∀ events,
       rows_unique (Part001.deliver events w)
       ∧ rows_unique (Part000.deliver events w)).
Proof.
  intros Hw. split.
  - intros prov sched. split.
    + by apply (moves_pass001 (keeps rows_unique) prov sched w).
    + by apply (moves_pass000 (keeps rows_unique) prov sched w).
  - intros events. split.
    + apply (moves_deliver (keeps rows_unique) Part001.connection_update events);
        [|done]. intros n u. apply moves_update001. apply _.
    + apply (moves_deliver (keeps rows_unique) Part000.connection_update events);
        [|done]. intros n u. apply moves_update000. apply _.
Qed.

Lemma running_rows_stay_unique_witness :
  rows_unique (Part001.deliver Example.opens_late
                 (exec (Part001.processPendingSessions Example.connects [])
                    Example.queue16)).
Proof.
  assert (rows_unique Example.queue16) as H0 by apply NoDup_nil_2.
  destruct (running_rows_stay_unique Example.queue16 H0) as [Hpass _].
  destruct (Hpass Example.connects []) as [H1 _].
  destruct (running_rows_stay_unique _ H1) as [_ Hev].
  exact (proj1 (Hev Example.opens_late)).
Defined.

(** X2. Every handle of [activeBots] is a socket that was made, filed under
    the session id its handlers closed over: when that holds, it still does
    after any pass and after any events, in either script. *)
Theorem handles_refer_to_their_sockets w :
  handles_sound w →
  (∀ prov sched,
     handles_sound (exec (Part001.processPendingSessions prov sched) w)
     ∧ handles_sound (exec (Part000.processPendingSessions prov sched) w))
  ∧ (∀ events,
       handles_sound (Part001.deliver events w)
       ∧ handles_sound (Part000.deliver events w)).
Proof.
  intros Hw. split.
  - intros prov sched. split.
    + by apply (moves_pass001 (keeps handles_sound) prov sched w).
    + by apply (moves_pass000 (keeps handles_sound) prov sched w).
  - intros events. split.
    + apply (moves_deliver (keeps handles_sound) Part001.connection_update events);
        [|done]. intros n u. apply moves_update001. apply _.
    + apply (moves_deliver (keeps handles_sound) Part000.connection_update events);
        [|done]. intros n u. apply moves_update000. apply _.
Qed.

Lemma handles_refer_to_their_sockets_witness :
  handles_sound (exec (Part001.processPendingSessions Example.connects (prompt_from 0 16))
                   Example.queue16).
Proof.
  assert (handles_sound Example.queue16) as H0.
  { intros sid n Hn. vm_compute in Hn. done. }
  destruct (handles_refer_to_their_sockets Example.queue16 H0) as [Hpass _].
  exact (proj1 (Hpass Example.connects (prompt_from 0 16))).
Defined.

(** X3. The pass and the handlers only read the subscriptions: after any
    pass and any events, in either script, [wavalidjid] holds the documents
    it held, and the unique index on [wasessions.sessionId] is as it was. *)
Theorem subscriptions_are_only_read w :
  (∀ prov sched,
     read_only_parts w (exec (Part001.processPendingSessions prov sched) w)
     ∧ read_only_parts w (exec (Part000.processPendingSessions prov sched) w))
  ∧ (∀ events,
       read_only_parts w (Part001.deliver events w)
       ∧ read_only_parts w (Part000.deliver events w)).
Proof.
  split.
  - intros prov sched. split.
    + apply (moves_pass001 read_only_parts prov sched w).
    + apply (moves_pass000 read_only_parts prov sched w).
  - intros events. split.
    + apply (moves_deliver read_only_parts Part001.connection_update events).
      intros n u. apply moves_update001. apply _.
    + apply (moves_deliver read_only_parts Part000.connection_update events).
      intros n u. apply moves_update000. apply _.
Qed.

(** X4. The pass and the handlers never add a pending record: after any pass
    and any events, in either script, [wasessions] is what is left of the
    earlier [wasessions] when some records are taken out, in the same order. *)
Theorem pending_queue_only_shrinks w :
  (∀ prov sched,
     wasessions (exec (Part001.processPendingSessions prov sched) w)
       `sublist_of` wasessions w
     ∧ wasessions (exec (Part000.processPendingSessions prov sched) w)
         `sublist_of` wasessions w)
  ∧ (∀ events,
       wasessions (Part001.deliver events w) `sublist_of` wasessions w
       ∧ wasessions (Part000.deliver events w) `sublist_of` wasessions w).
Proof.
  split.
  - intros prov sched. split.
    + apply (moves_pass001 pending_shrinks prov sched w).
    + apply (moves_pass000 pending_shrinks prov sched w).
  - intros events. split.
    + apply (moves_deliver pending_shrinks Part001.connection_update events).
      intros n u. apply moves_update001. apply _.
    + apply (moves_deliver pending_shrinks Part000.connection_update events).
      intros n u. apply moves_update000. apply _.
Qed.

(** X5. [expiredjid] is only ever appended to: after any pass and any events,
    in either script, the earlier documents are there, unchanged and in
    front. *)
Theorem expired_log_is_append_only w :
  (∀ prov sched,
     expiredjid w `prefix_of` expiredjid (exec (Part001.processPendingSessions prov sched) w)
     ∧ expiredjid w
         `prefix_of` expiredjid (exec (Part000.processPendingSessions prov sched) w))
  ∧ (∀ events,
       expiredjid w `prefix_of` expiredjid (Part001.deliver events w)
       ∧ expiredjid w `prefix_of` expiredjid (Part000.deliver events w)).
Proof.
  split.
  - intros prov sched. split.
    + apply (moves_pass001 expired_grows prov sched w).
    + apply (moves_pass000 expired_grows prov sched w).
  - intros events. split.
    + apply (moves_deliver expired_grows Part001.connection_update events).
      intros n u. apply moves_update001. apply _.
    + apply (moves_deliver expired_grows Part000.connection_update events).
      intros n u. apply moves_update000. apply _.
Qed.

(** X6. No [connection.update] event makes a socket: whatever events arrive,
    with whatever status codes, and whichever store calls are rejected, the
    sockets are the same in number and each is still the socket of the same
    session; neither script ever reconnects. *)
Theorem events_never_make_a_socket w events :
  same_sockets w (Part001.deliver events w)
  ∧ same_sockets w (Part000.deliver events w).
Proof.
  split.
  - apply (moves_deliver same_sockets Part001.connection_update events).
    intros n u. apply moves_update001. apply _.
  - apply (moves_deliver same_sockets Part000.connection_update events).
    intros n u. apply moves_update000. apply _.
Qed.

(** ** Identities and phone numbers *)

Lemma split_head_no_char c s : ¬ In c (list_ascii_of_string (split_head c s)).
Proof.
  induction s as [|a s IH]; simpl; [tauto|].
  destruct (Ascii.eqb a c) eqn:Hac; simpl; [tauto|].
  intros [->|Hin]; [|done]. by rewrite Ascii.eqb_refl in Hac.
Qed.

Lemma split_head_app c a b :
  ¬ In c (list_ascii_of_string a) → split_head c (a ++ String c b)%string = a.
Proof.
  induction a as [|x a IH]; simpl; intros Hno.
  - by rewrite Ascii.eqb_refl.
  - destruct (Ascii.eqb x c) eqn:Hxc.
    + apply Ascii.eqb_eq in Hxc. tauto.
    + f_equal. apply IH. tauto.
Qed.

Lemma split_head_whole c s :
  ¬ In c (list_ascii_of_string s) → split_head c s = s.
Proof.
  induction s as [|x s IH]; simpl; intros Hno; [done|].
  destruct (Ascii.eqb x c) eqn:Hxc.
  - apply Ascii.eqb_eq in Hxc. tauto.
  - f_equal. apply IH. tauto.
Qed.

(** X7. [extractPhoneNumber] gives the part of the identity before its first
    ['@']: the result holds no ['@']; of [phone@domain], with no ['@'] in
    [phone], it is [phone]; and a string without ['@'] comes back whole. *)
Theorem extractPhoneNumber_is_the_part_before_the_at :
  (∀ jid, ¬ In "@"%char (list_ascii_of_string (extractPhoneNumber jid)))
  ∧ (∀ phone domain,
       ¬ In "@"%char (list_ascii_of_string phone) →
       extractPhoneNumber (phone ++ "@" ++ domain)%string = phone)
  ∧ (∀ jid,
       ¬ In "@"%char (list_ascii_of_string jid) → extractPhoneNumber jid = jid).
Proof.
  split; [|split].
  - intros jid. apply split_head_no_char.
  - intros phone domain Hno. by apply (split_head_app "@" phone domain).
  - intros jid Hno. by apply split_head_whole.
Qed.

Lemma extractPhoneNumber_is_the_part_before_the_at_witness :
  extractPhoneNumber ("254700000001" ++ "@" ++ "s.whatsapp.net")%string = "254700000001"
  ∧ extractPhoneNumber "254700000001" = "254700000001".
Proof.
  destruct extractPhoneNumber_is_the_part_before_the_at as (_ & Hsplit & Hwhole).
  split.
  - apply Hsplit. simpl. intuition discriminate.
  - apply Hwhole. simpl. intuition discriminate.
Defined.

Lemma nonempty_app_r a b : nonempty b = true → nonempty (a ++ b)%string = true.
Proof. destruct a; [done|]. by intros _. Qed.

(** X8. [extractRemoteJidFromSession] never gives an empty identity, so the
    test [!remoteJid] of [processSession] catches exactly the records for
    which it gives none. The [remoteJid] of the first history entry, when
    there is one, is taken before the credentials are looked at. *)
Theorem remote_jid_is_never_empty session :
  (∀ rjid, Part000.extractRemoteJidFromSession session = Some rjid →
           nonempty rjid = true)
  ∧ (∀ first rest rjid,
       processedHistoryMessages session = first :: rest →
       key_remoteJid first = Some rjid →
       nonempty rjid = true →
       Part000.extractRemoteJidFromSession session = Some rjid).
Proof.
  unfold Part000.extractRemoteJidFromSession. split.
  - intros rjid.
    destruct (processedHistoryMessages session) as [|first rest].
    + destruct (me_id session) as [i|]; [|done].
      destruct (nonempty i); [|done]. intros [= <-]. by apply nonempty_app_r.
    + destruct (key_remoteJid first) as [j|].
      * destruct (nonempty j) eqn:Hj; [by intros [= <-]|].
        destruct (me_id session) as [i|]; [|done].
        destruct (nonempty i); [|done]. intros [= <-]. by apply nonempty_app_r.
      * destruct (me_id session) as [i|]; [|done].
        destruct (nonempty i); [|done]. intros [= <-]. by apply nonempty_app_r.
  - intros first rest rjid -> -> ->. done.
Qed.

Lemma remote_jid_is_never_empty_witness :
  Part000.extractRemoteJidFromSession Example.forged = Some (Example.account "01").
Proof.
  destruct (remote_jid_is_never_empty Example.forged) as [_ H].
  apply (H {| key_remoteJid := Some (Example.account "01") |} []); reflexivity.
Defined.

(** X9. From the credentials alone: [me.id] of the form [phone:device@domain]
    gives the identity [phone@s.whatsapp.net], and the phone number recorded
    for it is [phone]; [me.id] without a [':'] is taken whole, so that an id
    that already ends in a domain gets [@s.whatsapp.net] a second time. *)
Theorem remote_jid_of_the_credentials session :
  processedHistoryMessages session = [] →
  (∀ phone rest,
     me_id session = Some (phone ++ ":" ++ rest)%string →
     nonempty phone = true →
     ¬ In ":"%char (list_ascii_of_string phone) →
     ¬ In "@"%char (list_ascii_of_string phone) →
     Part000.extractRemoteJidFromSession session = Some (phone ++ "@s.whatsapp.net")%string
     ∧ extractPhoneNumber (phone ++ "@s.whatsapp.net")%string = phone)
  ∧ (∀ id,
       me_id session = Some id →
       nonempty id = true →
       ¬ In ":"%char (list_ascii_of_string id) →
       Part000.extractRemoteJidFromSession session = Some (id ++ "@s.whatsapp.net")%string).
Proof.
  intros Hh. unfold Part000.extractRemoteJidFromSession. rewrite Hh. split.
  - intros phone rest -> Hne Hcolon Hat.
    assert (nonempty (phone ++ ":" ++ rest)%string = true) as ->
      by (destruct phone; done).
    change (phone ++ ":" ++ rest)%string with (phone ++ String ":" rest)%string.
    rewrite (split_head_app ":" phone rest Hcolon). split; [done|].
    by apply (split_head_app "@" phone "s.whatsapp.net").
  - intros id -> Hne Hcolon. rewrite Hne. by rewrite (split_head_whole ":" id Hcolon).
Qed.

Lemma remote_jid_of_the_credentials_witness :
  Part000.extractRemoteJidFromSession (Example.pending "01")
  = Some "254700000001@s.whatsapp.net"
  ∧ Part000.extractRemoteJidFromSession Example.bare_id
    = Some "254700000001@s.whatsapp.net@s.whatsapp.net".
Proof.
  split.
  - destruct (remote_jid_of_the_credentials (Example.pending "01") eq_refl) as [H _].
    apply (H "254700000001" "7@s.whatsapp.net"); [reflexivity|reflexivity| |];
      simpl; intuition discriminate.
  - destruct (remote_jid_of_the_credentials Example.bare_id eq_refl) as [_ H].
    apply (H "254700000001@s.whatsapp.net"); [reflexivity|reflexivity|].
    simpl. intuition discriminate.
Defined.

(** ** Incoming messages *)

(** X10. The [messages.upsert] handler replies to a batch at most once, with
    [pong], to the sender of the first message of the batch and of no other;
    it does so exactly when that message is not the account's own, has a
    content, and its text is [ping] in any mix of cases. A message of the
    account itself is never answered. Nothing but the trace is touched. *)
Theorem ping_is_answered_once pong n msg rest w :
  let w' := exec (messages_upsert pong n (msg :: rest)) w in
  let answered := emit (Sent n (msg_remoteJid msg) pong) w in
  (w' = w ∨ w' = answered)
  ∧ (key_fromMe msg = true → w' = w)
  ∧ (message msg = None → w' = w)
  ∧ (∀ content,
       key_fromMe msg = false →
       message msg = Some content →
       (lower (text_of content) = "ping" → w' = answered)
       ∧ (lower (text_of content) ≠ "ping" → w' = w)).
Proof.
  unfold exec, messages_upsert. simpl.
  destruct (message msg) as [content|] eqn:Hm; simpl.
  2:{ split; [by left|]. split; [done|]. split; [done|]. intros content _ [=]. }
  destruct (key_fromMe msg) eqn:Hme; simpl.
  { split; [by left|]. split; [done|]. split; [done|]. intros content' [=]. }
  destruct (String.eqb (lower (text_of content)) "ping") eqn:Hping; simpl.
  - apply String.eqb_eq in Hping.
    split; [by right|]. split; [done|]. split; [done|].
    intros content' _ [= <-]. split; [done|]. intros Hne. done.
  - apply String.eqb_neq in Hping.
    split; [by left|]. split; [done|]. split; [done|].
    intros content' _ [= <-]. split; [|done]. intros Heq. done.
Qed.

Lemma ping_is_answered_once_witness :
  exec (messages_upsert pong001 0
          [{| key_fromMe := false; msg_remoteJid := "254700000002@s.whatsapp.net";
              message := Some {| conversation := Some "PiNg";
                                 extendedTextMessage_text := None |} |};
           {| key_fromMe := false; msg_remoteJid := "254700000003@s.whatsapp.net";
              message := Some {| conversation := Some "ping";
                                 extendedTextMessage_text := None |} |}])
       Example.active001
  = emit (Sent 0 "254700000002@s.whatsapp.net" pong001) Example.active001.
Proof.
  eapply ping_is_answered_once; reflexivity.
Defined.

(** ** The subscription check under a store failure *)

(** X11. The subscription check fails closed, and for good. When the store
    rejects the look-up and answers the calls that follow, part_000 handles
    the record as not subscribed, whether its identity is in [wavalidjid] or
    not: a document goes to [expiredjid], no socket is made, and the pending
    record, stored under an [ObjectId], is removed: no record of its [_id]
    is left and one record fewer is pending. In part_001 the open handler
    sends the not-subscribed notice, ends the socket, drops the handle,
    writes no row and removes the pending record: where the session ids of
    the pending records are unique, none of the socket's session id is
    left. *)
Theorem subscription_check_fails_closed w :
  faults w = [true] →
  (∀ p session rjid,
     Part000.extractRemoteJidFromSession session = Some rjid →
     session ∈ wasessions w →
     NoDup (_id <$> wasessions w) →
     new_ObjectId (id_toString (_id session)) = Ok (_id session) →
     let w' := exec (Part000.processSession p session) w in
     expiredjid w' = expiredjid w ++ [expired_for (extractPhoneNumber rjid)]
     ∧ wasessions w' = delete_first (by__id (_id session)) (wasessions w)
     ∧ (∀ d, d ∈ wasessions w' → _id d ≠ _id session)
     ∧ S (List.length (wasessions w')) = List.length (wasessions w)
     ∧ socks w' = socks w
     ∧ runningbots w' = runningbots w)
  ∧ (∀ n sk jid u,
       socks w !! n = Some sk →
       sk_user sk = Some jid →
       connection u = Some ConnOpen →
       NoDup (sessionId <$> wasessions w) →
       let w' := exec (Part001.connection_update n u) w in
       Sent n jid Part001.msg_not_subscribed ∈ trace w'
       ∧ socks w' !! n = Some (ended sk)
       ∧ activeBots w' !! sk_sessionId sk = None
       ∧ wasessions w' = delete_first (by_sessionId (sk_sessionId sk)) (wasessions w)
       ∧ (∀ d, d ∈ wasessions w' → sessionId d ≠ sk_sessionId sk)
       ∧ runningbots w' = runningbots w).
Proof.
  intros Hf. split.
  - intros p session rjid He Hin Hoid Hid.
    destruct (removed_once _id (_id session) (wasessions w) session
                Hin eq_refl Hoid) as (Hgone & Hlen & _).
    unfold exec, Part000.processSession. rewrite He.
    unfold_store. simpl. rewrite Hf. simpl.
    rewrite (pending_query_of_ObjectId session Hid). done.
  - intros n sk jid u Hsk Hu Hc Hsid w'. subst w'. unfold exec.
    destruct (Part001.connection_update n u w) as [r w'] eqn:Hrun.
    revert Hrun. unfold Part001.connection_update.
    unfold bind at 1. unfold gets. rewrite Hsk, Hc, Hu. simpl.
    unfold_store. simpl. rewrite Hf. simpl. intros [= _ <-]. simpl.
    split; [set_solver|]. split; [by rewrite list_lookup_alter_eq, Hsk|].
    split; [apply lookup_delete_eq|]. split; [done|].
    split; [|done]. by apply (delete_first_unique sessionId).
Qed.

Lemma subscription_check_fails_closed_witness :
  expiredjid (exec (Part000.processSession (Example.connects (Example.pending "01"))
                      (Example.pending "01"))
                (set_faults [true] Example.queue16))
  = [expired_for "254700000001"]
  ∧ List.length (wasessions
       (exec (Part000.processSession (Example.connects (Example.pending "01"))
                (Example.pending "01"))
          (set_faults [true] Example.queue16))) = 15%nat.
Proof.
  destruct (subscription_check_fails_closed (set_faults [true] Example.queue16) eq_refl)
    as [H _].
  destruct (H (Example.connects (Example.pending "01")) (Example.pending "01")
              (Example.account "01") eq_refl) as (He & _ & _ & Hlen & _).
  - left.
  - apply (bool_decide_unpack _). vm_compute. exact I.
  - reflexivity.
  - split; [exact He|]. exact (eq_add_S _ 15%nat Hlen).
Defined.

(** ** Subscriptions *)

Lemma find_snoc_miss {A} (p : A → bool) (l : list A) x :
  List.find p l = None → p x = false → List.find p (l ++ [x]) = None.
Proof.
  intros Hl Hx. induction l as [|y l IH]; simpl in *; [by rewrite Hx|].
  destruct (p y); [done|]. by apply IH.
Qed.

(** X12. A subscription that [/add-subscription] accepted is seen by the
    subscription check of the same script from then on, and adding the same
    identity again is refused by the store (duplicate key on the script's own
    index, status 500) and changes nothing. While the store answers. *)
Theorem subscription_round_trip w others jid :
  faults w = [] →
  (∀ w1,
     add_subscription000 others (Some jid) w = (Ok (Json 200 "Subscription added"), w1) →
     Part000.isJidSubscribed jid w1 = (Ok true, emit (AuthQuery jid) w1)
     ∧ add_subscription000 others (Some jid) w1 = (Ok (ErrorThrown 500 DuplicateKey), w1))
  ∧ (∀ w1,
       add_subscription001 others (Some jid) w = (Ok (Json 200 "Subscription added"), w1) →
       Part001.isJidSubscribed jid w1 = (Ok true, emit (AuthQuery jid) w1)
       ∧ add_subscription001 others (Some jid) w1 = (Ok (ErrorThrown 500 DuplicateKey), w1)).
Proof.
  intros Hf. split.
  - intros w1. unfold add_subscription000, try_catch, bind, wavalidjid_insertOne.
    simpl. destruct (nonempty jid); simpl; [|done].
    rewrite db_answers by done.
    match goal with |- context [if ?c then _ else _] => destruct c end; simpl; [done|].
    intros [= <-].
    assert (is_Some (List.find (λ d, bool_decide (f_Jid d = Some jid))
                       (wavalidjid w ++ [{| f_Jid := Some jid; f_jid := None |}])))
      as Hfound by (apply find_snoc_hit; simpl; by rewrite bool_decide_eq_true_2).
    split.
    + rewrite isJidSubscribed000_answers by done. simpl.
      by rewrite bool_decide_eq_true_2.
    + unfold db. simpl. rewrite Hf. rewrite (existsb_app _ (wavalidjid w)). simpl.
      rewrite bool_decide_eq_true_2 by done. by rewrite !orb_true_r.
  - intros w1. unfold add_subscription001, try_catch, bind, wavalidjid_insertOne.
    simpl. destruct (nonempty jid); simpl; [|done].
    rewrite db_answers by done.
    match goal with |- context [if ?c then _ else _] => destruct c end; simpl; [done|].
    intros [= <-].
    assert (is_Some (List.find (λ d, bool_decide (f_jid d = Some jid))
                       (wavalidjid w ++ [{| f_Jid := None; f_jid := Some jid |}])))
      as Hfound by (apply find_snoc_hit; simpl; by rewrite bool_decide_eq_true_2).
    split.
    + rewrite isJidSubscribed001_answers by done. simpl.
      by rewrite bool_decide_eq_true_2.
    + unfold db. simpl. rewrite Hf. rewrite (existsb_app _ (wavalidjid w)). simpl.
      rewrite bool_decide_eq_true_2 by done. by rewrite !orb_true_r.
Qed.

Lemma subscription_round_trip_witness :
  Part000.isJidSubscribed "254700000001@s.whatsapp.net"
    (exec (add_subscription000 [] (Some "254700000001@s.whatsapp.net"))
       Example.empty_store)
  = (Ok true,
     emit (AuthQuery "254700000001@s.whatsapp.net")
       (exec (add_subscription000 [] (Some "254700000001@s.whatsapp.net"))
          Example.empty_store)).
Proof.
  destruct (subscription_round_trip Example.empty_store []
              "254700000001@s.whatsapp.net" eq_refl) as [H _].
  apply H. reflexivity.
Defined.

Lemma isJidSubscribed001_lacking jid w :
  lacks f_jid jid w → (Part001.isJidSubscribed jid w).1 = Ok false.
Proof.
  unfold lacks. intros Hnone. unfold Part001.isJidSubscribed. unfold_store. simpl.
  destruct (faults w) as [|[] later]; simpl; try done; by rewrite Hnone.
Qed.

Lemma isJidSubscribed000_lacking jid w :
  lacks f_Jid jid w → (Part000.isJidSubscribed jid w).1 = Ok false.
Proof.
  unfold lacks. intros Hnone. unfold Part000.isJidSubscribed. unfold_store. simpl.
  destruct (faults w) as [|[] later]; simpl; try done; by rewrite Hnone.
Qed.

Lemma keeps_lacks_faults field jid l w :
  keeps (lacks field jid) w (set_faults l w).
Proof. by intros H. Qed.

Lemma moves_insert_other_field field jid indexes d :
  field d ≠ Some jid →
  moves (keeps (lacks field jid)) (wavalidjid_insertOne indexes d).
Proof.
  intros Hd. unfold wavalidjid_insertOne.
  apply moves_db; [apply _|apply keeps_lacks_faults|].
  intros w. destruct (existsb _ indexes); simpl; [by intros H|].
  unfold keeps, lacks. simpl. intros Hnone. apply find_snoc_miss; [done|].
  by apply bool_decide_eq_false_2.
Qed.

Lemma moves_createIndex field jid :
  moves (keeps (lacks field jid)) createIndex_jid
  ∧ (∀ f, moves (keeps (lacks field jid)) (createIndex_valid f))
  ∧ moves (keeps (lacks field jid)) createIndex_sessionId.
Proof.
  split; [|split]; [|intros f|].
  all: apply moves_db; [apply _|apply keeps_lacks_faults|].
  all: intros w; destruct (bool_decide _); simpl; by intros H.
Qed.

Lemma moves_add_subscription001 jid others request :
  moves (keeps (lacks f_Jid jid)) (add_subscription001 others request).
Proof.
  unfold add_subscription001. apply moves_try_catch; [apply _| |intros e; step].
  destruct (missing request); [step|].
  apply moves_bind; [apply _| |intros _; step].
  by apply moves_insert_other_field.
Qed.

Lemma moves_add_subscription000 jid others request :
  moves (keeps (lacks f_jid jid)) (add_subscription000 others request).
Proof.
  unfold add_subscription000. apply moves_try_catch; [apply _| |intros e; step].
  destruct (missing request); [step|].
  apply moves_bind; [apply _| |intros _; step].
  by apply moves_insert_other_field.
Qed.

Lemma moves_setupDatabase jid others :
  moves (keeps (lacks f_jid jid)) (Setup.setupDatabase others).
Proof.
  destruct (moves_createIndex f_jid jid) as (Hj & Hv & Hs).
  unfold Setup.setupDatabase, Setup.createCollection.
  apply moves_try_catch; [apply _| |intros e; step].
  repeat (apply moves_bind; [apply _| |intros _]);
    try (apply moves_db; [apply _|apply keeps_lacks_faults|step]);
    try done.
  by apply moves_insert_other_field.
Qed.

(** X13. The two scripts write and read the subscription under different
    field names, [Jid] and [jid]. An identity that only part_001's endpoint
    (or only part_000's) has added is not subscribed for the other script;
    and the owner that src/setup.js adds, under [Jid], is not subscribed for
    part_001. Whether or not the store answers. *)
Theorem subscription_field_names_differ w jid others :
  (lacks f_Jid jid w →
   ∀ request,
     (Part000.isJidSubscribed jid (exec (add_subscription001 others request) w)).1
     = Ok false)
  ∧ (lacks f_jid jid w →
     ∀ request,
       (Part001.isJidSubscribed jid (exec (add_subscription000 others request) w)).1
       = Ok false)
  ∧ (lacks f_jid jid w →
     (Part001.isJidSubscribed jid (exec (Setup.setupDatabase others) w)).1 = Ok false).
Proof.
  split; [|split].
  - intros Hw request. apply isJidSubscribed000_lacking. revert Hw.
    apply moves_add_subscription001.
  - intros Hw request. apply isJidSubscribed001_lacking. revert Hw.
    apply moves_add_subscription000.
  - intros Hw. apply isJidSubscribed001_lacking. revert Hw.
    apply moves_setupDatabase.
Qed.

Lemma subscription_field_names_differ_witness :
  (Part001.isJidSubscribed "254704897825@s.whatsapp.net"
     (exec (Setup.setupDatabase []) Example.empty_store)).1 = Ok false
  ∧ (Part000.isJidSubscribed "254704897825@s.whatsapp.net"
       (exec (Setup.setupDatabase []) Example.empty_store)).1 = Ok true.
Proof.
  split; [|reflexivity].
  destruct (subscription_field_names_differ Example.empty_store
              "254704897825@s.whatsapp.net" []) as (_ & _ & H).
  apply H. reflexivity.
Defined.

(** X14. A unique index counts a document without the field as holding
    [null]. Where the collection also has the index on [Jid] (that of
    src/setup.js and of part_000), the documents part_001 adds all lack
    [Jid]: once one is stored, every further [/add-subscription] of part_001,
    for any identity, is refused with a duplicate key. *)
Theorem second_subscription_collides_on_the_missing_field w others jid1 jid2 w1 :
  faults w = [] →
  f_Jid ∈ others →
  add_subscription001 others (Some jid1) w = (Ok (Json 200 "Subscription added"), w1) →
  nonempty jid2 = true →
  add_subscription001 others (Some jid2) w1 = (Ok (ErrorThrown 500 DuplicateKey), w1).
Proof.
  intros Hf Hidx. unfold add_subscription001, try_catch, bind, wavalidjid_insertOne.
  simpl. destruct (nonempty jid1); simpl; [|done].
  rewrite db_answers by done.
  match goal with |- context [if ?c then _ else _] => destruct c end; simpl; [done|].
  intros [= <-] ->. simpl.
  unfold db. simpl. rewrite Hf.
  assert (existsb
            (λ field, existsb (λ d', bool_decide
                                      (field d' = field {| f_Jid := None; f_jid := Some jid2 |}))
                        (wavalidjid w ++ [{| f_Jid := None; f_jid := Some jid1 |}]))
            others = true) as Hhit.
  { apply existsb_exists. exists f_Jid. split; [by apply list_elem_of_In|].
    rewrite existsb_app. simpl. by rewrite orb_true_r. }
  rewrite Hhit. by rewrite orb_true_r.
Qed.

Lemma second_subscription_collides_on_the_missing_field_witness :
  add_subscription001 [f_Jid] (Some "254700000002@s.whatsapp.net")
    (exec (add_subscription001 [f_Jid] (Some "254700000001@s.whatsapp.net"))
       Example.empty_store)
  = (Ok (ErrorThrown 500 DuplicateKey),
     exec (add_subscription001 [f_Jid] (Some "254700000001@s.whatsapp.net"))
       Example.empty_store).
Proof.
  apply (second_subscription_collides_on_the_missing_field Example.empty_store [f_Jid]
           "254700000001@s.whatsapp.net" "254700000002@s.whatsapp.net").
  - reflexivity.
  - apply list_elem_of_singleton. reflexivity.
  - reflexivity.
  - reflexivity.
Defined.

(** ** What the endpoints refuse, and what they let through *)

(** X15. A request without its identifier is refused with status 400 before
    the store is called: [/add-session] and [/upload-session] without
    [sessionId], [/upload-session] without [sessionData], [/add-subscription]
    without [jid] leave the world exactly as it is, whether the store would
    have answered or not. *)
Theorem requests_are_validated_before_the_store oid body others w :
  (missing (b_sessionId body) = true →
   add_session oid body w = (Ok (ErrorJson 400 "Session ID is required"), w)
   ∧ upload_session oid body w = (Ok (ErrorJson 400 "Session ID is required"), w))
  ∧ (missing (b_sessionId body) = false →
     b_sessionData body = None →
     upload_session oid body w = (Ok (ErrorJson 400 "Session data is required"), w))
  ∧ (∀ jid,
       missing jid = true →
       add_subscription000 others jid w = (Ok (ErrorJson 400 "JID is required"), w)
       ∧ add_subscription001 others jid w = (Ok (ErrorJson 400 "JID is required"), w)).
Proof.
  split; [|split].
  - intros Hm. unfold add_session, upload_session, try_catch. by rewrite Hm.
  - intros Hm Hd. unfold upload_session, try_catch. by rewrite Hm, Hd.
  - intros jid Hm. unfold add_subscription000, add_subscription001, try_catch.
    by rewrite Hm.
Qed.

Lemma requests_are_validated_before_the_store_witness :
  add_session "65f0c0ffee0123456789ac01"
    {| b_sessionId := Some ""; b_phoneNumber := JStr "254700000001";
       b_sessionData := None |}
    (set_faults [true] Example.empty_store)
  = (Ok (ErrorJson 400 "Session ID is required"), set_faults [true] Example.empty_store).
Proof.
  destruct (requests_are_validated_before_the_store "65f0c0ffee0123456789ac01"
              {| b_sessionId := Some ""; b_phoneNumber := JStr "254700000001";
                 b_sessionData := None |} []
              (set_faults [true] Example.empty_store)) as [H _].
  apply H. reflexivity.
Defined.

(** X16. [/upload-session] looks up the [sessionId] of the request, but
    stores the [sessionId] of the uploaded object when that has one. With an
    object that carries the [sessionId] of a record already stored, an upload
    under a fresh request id passes the look-up: without the unique index of
    src/setup.js a second record of the stored identifier is accepted; with
    the index it is the store that refuses it. While the store answers. *)
Theorem upload_can_carry_its_own_sessionId w oid body sessionData requested carried :
  faults w = [] →
  b_sessionId body = Some requested →
  nonempty requested = true →
  b_sessionData body = Some sessionData →
  sd_sessionId sessionData = Some carried →
  List.find (by_sessionId requested) (wasessions w) = None →
  existsb (by_sessionId carried) (wasessions w) = true →
  existsb (by__id (default (ObjectId oid) (sd__id sessionData))) (wasessions w) = false →
  (sessionId_index w = false →
   ∃ stored,
     upload_session oid body w
     = (Ok (Json 200 "Session uploaded successfully and added to processing queue"),
        set_wasessions (λ l, l ++ [stored]) w)
     ∧ sessionId stored = carried)
  ∧ (sessionId_index w = true →
     upload_session oid body w = (Ok (ErrorThrown 500 DuplicateKey), w)).
Proof.
  intros Hf Hb Hne Hd Hc Hfree Hdup Hid.
  unfold upload_session, try_catch, bind, wasessions_findOne, wasessions_insertOne.
  rewrite Hb, Hd. simpl. rewrite Hne. simpl.
  rewrite db_answers by done. unfold gets. rewrite Hfree. simpl.
  rewrite db_answers by done. rewrite Hc. simpl. rewrite Hid, Hdup. simpl.
  split; intros ->; simpl; [|done].
  eexists. split; [reflexivity|done].
Qed.

Lemma upload_can_carry_its_own_sessionId_witness :
  sessionId <$> wasessions
    (exec (upload_session "65f0c0ffee0123456789ac09"
             {| b_sessionId := Some "fresh"; b_phoneNumber := JUndefined;
                b_sessionData := Some Example.carries_s01 |})
       (set_sessionId_index false Example.nobody_subscribed))
  = ["s01"; "s01"].
Proof.
  destruct (upload_can_carry_its_own_sessionId
              (set_sessionId_index false Example.nobody_subscribed)
              "65f0c0ffee0123456789ac09"
              {| b_sessionId := Some "fresh"; b_phoneNumber := JUndefined;
                 b_sessionData := Some Example.carries_s01 |}
              Example.carries_s01 "fresh" "s01"
              eq_refl eq_refl eq_refl eq_refl eq_refl eq_refl eq_refl eq_refl)
    as [H _].
  destruct (H eq_refl) as (stored & Hrun & Hsid).
  unfold exec. rewrite Hrun. simpl. by rewrite Hsid.
Defined.

(** ** A record part_000 cannot remove *)

(** X17. part_000 removes a pending record by the [ObjectId] made from the
    string of its [_id], and by the field [sessionId] when that string makes
    none. For a record whose [_id] string makes no [ObjectId] and is no
    stored [sessionId], [removeFromPendingSessions] removes nothing: a record
    without identity is left where it is, and a record that is not subscribed
    gets its [expiredjid] document and stays pending, to be rejected again by
    the next pass. While the store answers. *)
Theorem record_without_ObjectId_is_never_removed w session e :
  faults w = [] →
  new_ObjectId (Part000.sessionId_of session) = Throw e →
  (∀ d, d ∈ wasessions w → sessionId d ≠ Part000.sessionId_of session) →
  Part000.removeFromPendingSessions (Part000.sessionId_of session) w = (Ok tt, w)
  ∧ (∀ p,
       Part000.extractRemoteJidFromSession session = None →
       Part000.processSession p session w = (Ok tt, w))
  ∧ (∀ p rjid,
       Part000.extractRemoteJidFromSession session = Some rjid →
       lacks f_Jid rjid w →
       let w' := exec (Part000.processSession p session) w in
       wasessions w' = wasessions w
       ∧ expiredjid w' = expiredjid w ++ [expired_for (extractPhoneNumber rjid)]).
Proof.
  intros Hf Hoid Hsid.
  assert (delete_first (Part000.pending_query (Part000.sessionId_of session))
            (wasessions w) = wasessions w) as Hsame.
  { unfold Part000.pending_query. rewrite Hoid. by apply delete_first_none. }
  assert (Part000.removeFromPendingSessions (Part000.sessionId_of session) w = (Ok tt, w))
    as Hremove.
  { rewrite removeFromPendingSessions000_answers by done.
    by rewrite set_wasessions_same. }
  split; [done|]. split.
  - intros p He. rewrite (process000_no_identity w Hf p session He).
    by rewrite set_wasessions_same.
  - intros p rjid He Hsub. unfold exec.
    rewrite (process000_unsubscribed w Hf p session rjid He Hsub). simpl.
    by rewrite Hsame.
Qed.

Lemma record_without_ObjectId_is_never_removed_witness :
  wasessions (exec (Part000.processSession ProviderThrows Example.own_id)
                (set_wasessions (λ _, [Example.own_id]) Example.nobody_subscribed))
  = [Example.own_id].
Proof.
  destruct (record_without_ObjectId_is_never_removed
              (set_wasessions (λ _, [Example.own_id]) Example.nobody_subscribed)
              Example.own_id TypeError eq_refl eq_refl) as (_ & _ & H).
  - intros d [->|[]%elem_of_nil]%elem_of_cons. discriminate.
  - destruct (H ProviderThrows "254700000001@s.whatsapp.net" eq_refl eq_refl)
      as [Hw _].
    exact Hw.
Defined.

(** ** Two sessions of one identity *)

Lemma existsb_by_jid_of_row d rows :
  d ∈ rows → existsb (by_jid (r_jid d)) rows = true.
Proof.
  intros Hd. apply existsb_exists. exists d. split; [by apply list_elem_of_In|].
  unfold by_jid, has_key. by apply bool_decide_eq_true_2.
Qed.

(** X18. In part_000, when the connection of a session opens and a
    [runningbots] row of its identity is already there, the session gets its
    handle and no row (the duplicate key is caught and logged). When that
    connection closes, the row of the identity is deleted all the same, and
    the handles of the other sessions stay. While the store answers. *)
Theorem second_session_of_an_identity w n sk d code :
  faults w = [] →
  rows_unique w →
  socks w !! n = Some sk →
  d ∈ runningbots w →
  r_jid d = sk_remoteJid sk →
  let w1 := exec (Part000.connection_update n opened) w in
  let w2 := exec (Part000.connection_update n (closed code)) w1 in
  runningbots w1 = runningbots w
  ∧ activeBots w1 !! sk_sessionId sk = Some n
  ∧ (∀ d', d' ∈ runningbots w2 → r_jid d' ≠ sk_remoteJid sk)
  ∧ (∀ sid, sid ≠ sk_sessionId sk → activeBots w2 !! sid = activeBots w !! sid).
Proof.
  intros Hf Hnd Hsk Hd Hjid w1 w2. subst w2 w1. unfold exec.
  rewrite (open000 w Hf n sk opened Hsk eq_refl). simpl.
  rewrite <- Hjid, (existsb_by_jid_of_row d _ Hd), Hjid.
  match goal with |- context [Part000.connection_update n (closed code) ?x] =>
    set (w1 := x) end.
  rewrite (close000 w1 Hf n sk (closed code) Hsk eq_refl). subst w1. simpl.
  split; [done|]. split; [by rewrite lookup_insert_eq|].
  match goal with |- context [if ?c then _ else _] => destruct c end; simpl.
  all: split; [by apply (delete_first_unique r_jid)|].
  all: intros sid Hsid; by rewrite lookup_delete_ne, lookup_insert_ne by done.
Qed.

Lemma second_session_of_an_identity_witness :
  runningbots
    (exec (Part000.connection_update 0 (closed None))
       (exec (Part000.connection_update 0 opened) Example.twin_connects))
  = [].
Proof.
  destruct (second_session_of_an_identity Example.twin_connects 0
              (new_sock "65f0c0ffee0123456789abfc" (Example.account "01") None)
              (Example.row "01") None) as (_ & _ & Hgone & _).
  - reflexivity.
  - apply (bool_decide_unpack _). vm_compute. exact I.
  - reflexivity.
  - left.
  - reflexivity.
  - destruct (runningbots _) as [|d' rows] eqn:Hrows; [done|].
    exfalso. apply (Hgone d'); [left|].
    vm_compute in Hrows. done.
Defined.

(** ** The shutdown and the status route *)

Lemma end_all_socks (entries : list (string * nat)) w :
  let w' := foldr (λ entry w', exec (sock_end entry.2) w') w entries in
  (∀ n, socks w' !! n
        = (if bool_decide (n ∈ entries.*2) then ended else id) <$> socks w !! n)
  ∧ runningbots w' = runningbots w ∧ wasessions w' = wasessions w
  ∧ expiredjid w' = expiredjid w ∧ wavalidjid w' = wavalidjid w
  ∧ activeBots w' = activeBots w.
Proof.
  induction entries as [|[sid m] entries IH]; simpl.
  - split; [|done]. intros n. by destruct (socks w !! n).
  - destruct IH as (Hsocks & Hr & Hp & He & Hv & Ha). split; [|done].
    intros n. unfold sock_end, modify, exec. simpl.
    destruct (decide (m = n)) as [->|Hne].
    + rewrite list_lookup_alter_eq, Hsocks.
      destruct (socks w !! n); simpl; [|done].
      case_bool_decide as H1; case_bool_decide as H2; try done.
      all: exfalso; apply H2; left.
    + rewrite list_lookup_alter_ne, Hsocks by done.
      destruct (socks w !! n); simpl; [|done]. f_equal.
      case_bool_decide as H1; case_bool_decide as H2; try done.
      * exfalso. apply H2. by right.
      * exfalso. apply elem_of_cons in H2 as [->|H2]; done.
Qed.

(** X19. The [SIGINT] handler ends the sockets that have a handle in
    [activeBots], and only those: a socket that was made and has not opened
    yet is left as it is. It exits with code 0 and leaves the four
    collections as they are; the [runningbots] rows of the workers it ends
    stay in the store. *)
Theorem shutdown_ends_the_pool_only w :
  let w' := exec shutdown w in
  (shutdown w).1 = Ok (Exited 0)
  ∧ (∀ sid n sk,
       activeBots w !! sid = Some n → socks w !! n = Some sk →
       socks w' !! n = Some (ended sk))
  ∧ (∀ n, (∀ sid, activeBots w !! sid ≠ Some n) → socks w' !! n = socks w !! n)
  ∧ runningbots w' = runningbots w ∧ wasessions w' = wasessions w
  ∧ expiredjid w' = expiredjid w ∧ wavalidjid w' = wavalidjid w.
Proof.
  unfold shutdown, exec, bind, modify, ret. simpl.
  destruct (end_all_socks (map_to_list (activeBots w)) w)
    as (Hsocks & Hr & Hp & He & Hv & _).
  split; [done|]. split; [|split; [|done]].
  - intros sid n sk Hn Hsk. rewrite Hsocks, Hsk. simpl.
    rewrite bool_decide_eq_true_2; [done|].
    apply list_elem_of_fmap. exists (sid, n). split; [done|].
    by apply elem_of_map_to_list.
  - intros n Hn. rewrite Hsocks.
    rewrite bool_decide_eq_false_2; [by destruct (socks w !! n)|].
    intros ([sid m] & -> & Hin)%list_elem_of_fmap.
    apply elem_of_map_to_list in Hin. by apply (Hn sid).
Qed.

Lemma shutdown_ends_the_pool_only_witness :
  socks (exec shutdown Example.active001) !! 0%nat
  = Some (ended (new_sock "s01" "" (Some (Example.account "01")))).
Proof.
  destruct (shutdown_ends_the_pool_only Example.active001) as (_ & H & _).
  apply (H "s01"); reflexivity.
Defined.

(** X20. [/status]: while the store answers, it reports the sizes of the
    three collections and of [activeBots]. When the store rejects the count
    of [runningbots], the answer is still a success and reports 0 running
    bots, whatever the rows; when it rejects the next count, the answer is an
    error with status 500. Nothing but the store's turn is used up. *)
Theorem status_reports w :
  (faults w = [] →
   status w
   = (Ok (StatusJson (List.length (runningbots w)) (List.length (wasessions w))
            (List.length (expiredjid w)) (size (activeBots w)) MAX_BOTS), w))
  ∧ (faults w = [true] →
     status w
     = (Ok (StatusJson 0 (List.length (wasessions w)) (List.length (expiredjid w))
              (size (activeBots w)) MAX_BOTS), set_faults [] w))
  ∧ (faults w = [false; true] →
     status w = (Ok (StatusError 500 StoreUnavailable), set_faults [] w)).
Proof.
  unfold status, getRunningBotsCount, runningbots_countDocuments,
    wasessions_countDocuments, expiredjid_countDocuments, db.
  unfold_async. split; [|split]; intros Hf; repeat (rewrite Hf; simpl); done.
Qed.

Lemma status_reports_witness :
  status Example.full_then_outage
  = (Ok (StatusError 500 StoreUnavailable), set_faults [] Example.full_then_outage)
  ∧ status (set_faults [true] Example.full)
    = (Ok (StatusJson 0 1 0 0 MAX_BOTS), set_faults [] (set_faults [true] Example.full)).
Proof.
  split; [reflexivity|].
  destruct (status_reports (set_faults [true] Example.full)) as (_ & H & _).
  apply H. reflexivity.
Defined.

(** ** src/setup.js and src/database.js *)

Lemma set_sessionId_index_same w :
  sessionId_index w = true → set_sessionId_index true w = w.
Proof. destruct w. simpl. by intros ->. Qed.

Lemma setupDatabase_answers others w :
  faults w = [] →
  rows_unique w →
  NoDup (f_Jid <$> wavalidjid w) →
  NoDup (sessionId <$> wasessions w) →
  Setup.setupDatabase others w
  = (Ok tt,
     if existsb (λ field, existsb (λ d, bool_decide (field d = field Setup.owner))
                            (wavalidjid w))
          (f_Jid :: others)
     then set_sessionId_index true w
     else set_wavalidjid (λ l, l ++ [Setup.owner]) (set_sessionId_index true w)).
Proof.
  intros Hf Hr Hv Hs.
  unfold Setup.setupDatabase, Setup.createCollection, try_catch, bind,
    createIndex_jid, createIndex_valid, createIndex_sessionId, wavalidjid_insertOne,
    db, ret.
  repeat (first [rewrite Hf | rewrite bool_decide_eq_true_2 by done]; simpl).
  by match goal with |- context [if ?c then _ else _] => destruct c end.
Qed.

Lemma one_of_a_unique_field (l : list ValidDoc) (v : option string) :
  NoDup (f_Jid <$> l) →
  existsb (λ d, bool_decide (f_Jid d = v)) l = true →
  List.length (List.filter (λ d, bool_decide (f_Jid d = v)) l) = 1%nat.
Proof.
  induction l as [|x l IH]; [done|]. simpl.
  intros [Hx Hl]%NoDup_cons. case_bool_decide as Hkey; simpl.
  - intros _. f_equal. rewrite (filter_none_of_existsb _ l); [done|].
    apply not_true_iff_false. intros (y & Hy & Hky)%existsb_exists.
    apply bool_decide_eq_true_1 in Hky. apply Hx. rewrite Hkey, <- Hky.
    apply list_elem_of_fmap. exists y. split; [done|]. by apply list_elem_of_In.
  - by apply IH.
Qed.

(** X21. src/setup.js can be run again. On a store that answers and holds no
    duplicates, [setupDatabase] puts the unique index on
    [wasessions.sessionId] in place and adds the owner's subscription unless
    a unique index of [wavalidjid] refuses it: the index on [Jid] when the
    owner is already there, or another index, [others], such as the one of
    part_001 on [jid] once a document without [jid] is stored. So the owner
    is there once when it was there before or nothing refuses it, and not at
    all otherwise; the refusal is caught. A second run changes nothing. *)
Theorem setupDatabase_can_be_run_again others w :
  faults w = [] →
  rows_unique w →
  NoDup (f_Jid <$> wavalidjid w) →
  NoDup (sessionId <$> wasessions w) →
  let is_owner (d : ValidDoc) := bool_decide (f_Jid d = f_Jid Setup.owner) in
  let refused :=
    existsb (λ field, existsb (λ d, bool_decide (field d = field Setup.owner))
                        (wavalidjid w))
      (f_Jid :: others) in
  let w1 := exec (Setup.setupDatabase others) w in
  sessionId_index w1 = true
  ∧ wavalidjid w1 = (if refused then wavalidjid w else wavalidjid w ++ [Setup.owner])
  ∧ List.length (List.filter is_owner (wavalidjid w1))
    = (if existsb is_owner (wavalidjid w) then 1
       else if refused then 0 else 1)%nat
  ∧ exec (Setup.setupDatabase others) w1 = w1.
Proof.
  intros Hf Hr Hv Hs is_owner refused w1. subst w1. unfold exec.
  rewrite (setupDatabase_answers others w Hf Hr Hv Hs).
  change (existsb _ (f_Jid :: others)) with refused.
  assert (refused = existsb is_owner (wavalidjid w)
                    || existsb (λ field, existsb (λ d, bool_decide (field d = field Setup.owner))
                                           (wavalidjid w)) others) as Hrefused
    by reflexivity.
  destruct refused eqn:Href.
  - split; [done|]. split; [done|]. split.
    + destruct (existsb is_owner (wavalidjid w)) eqn:Hown.
      * by apply (one_of_a_unique_field (wavalidjid w) (f_Jid Setup.owner)).
      * change (wavalidjid (Ok tt, set_sessionId_index true w).2) with (wavalidjid w).
        by rewrite (filter_none_of_existsb is_owner (wavalidjid w) Hown).
    + change ((Ok tt, set_sessionId_index true w).2) with (set_sessionId_index true w).
      rewrite (setupDatabase_answers others (set_sessionId_index true w)) by done.
      change (wavalidjid (set_sessionId_index true w)) with (wavalidjid w).
      change (existsb (λ field, existsb (λ d, bool_decide (field d = field Setup.owner))
                                  (wavalidjid w)) (f_Jid :: others))
        with (existsb is_owner (wavalidjid w)
              || existsb (λ field, existsb (λ d, bool_decide (field d = field Setup.owner))
                                     (wavalidjid w)) others).
      rewrite <- Hrefused. by rewrite set_sessionId_index_same.
  - symmetry in Hrefused. apply orb_false_iff in Hrefused as [Hown Hothers].
    split; [done|]. split; [done|]. rewrite Hown. split.
    + by apply filter_snoc_only; [|apply bool_decide_eq_true_2].
    + set (w1 := set_wavalidjid _ _).
      change ((Ok tt, w1).2) with w1.
      assert (NoDup (f_Jid <$> wavalidjid w1)) as Hv1.
      { subst w1. simpl. rewrite fmap_app. apply NoDup_app. split; [done|].
        split; [|apply NoDup_singleton].
        intros j Hj [->|[]%elem_of_nil]%elem_of_cons.
        apply list_elem_of_fmap in Hj as (y & Hy & Hin).
        apply not_true_iff_false in Hown. apply Hown. apply existsb_exists.
        exists y. split; [by apply list_elem_of_In|]. by apply bool_decide_eq_true_2. }
      rewrite (setupDatabase_answers others w1 Hf Hr Hv1 Hs).
      assert (existsb (λ field, existsb (λ d, bool_decide (field d = field Setup.owner))
                                  (wavalidjid w1)) (f_Jid :: others) = true) as ->.
      { subst w1. simpl. rewrite existsb_app. simpl. by rewrite orb_true_r. }
      by rewrite set_sessionId_index_same.
Qed.

(** The sixteen subscriptions of the example queue have [jid] set: the index
    of part_001 refuses nothing, the owner is added, and the second run
    changes nothing. With the two subscriptions part_000 wrote, which have
    no [jid], the index on [jid] refuses the owner. *)
Lemma setupDatabase_can_be_run_again_witness :
  exec (Setup.setupDatabase [f_jid])
    (exec (Setup.setupDatabase [f_jid]) Example.queue16)
  = exec (Setup.setupDatabase [f_jid]) Example.queue16
  ∧ wavalidjid (exec (Setup.setupDatabase [f_jid]) Example.two_Jid_subscriptions)
    = wavalidjid Example.two_Jid_subscriptions.
Proof.
  split.
  - destruct (setupDatabase_can_be_run_again [f_jid] Example.queue16) as (_ & _ & _ & H).
    + reflexivity.
    + apply NoDup_nil_2.
    + apply (bool_decide_unpack _). vm_compute. exact I.
    + apply (bool_decide_unpack _). vm_compute. exact I.
    + exact H.
  - destruct (setupDatabase_can_be_run_again [f_jid] Example.two_Jid_subscriptions)
      as (_ & H & _).
    + reflexivity.
    + apply NoDup_nil_2.
    + apply (bool_decide_unpack _). vm_compute. exact I.
    + apply NoDup_nil_2.
    + exact H.
Defined.

Lemma delete_first_snoc {A} (p : A → bool) (l : list A) x :
  existsb p l = false → p x = true → delete_first p (l ++ [x]) = l.
Proof.
  intros Hl Hx. induction l as [|y l IH]; simpl in *; [by rewrite Hx|].
  apply orb_false_iff in Hl as [-> Hl]. f_equal. by apply IH.
Qed.

(** X22. The [DatabaseManager] of src/database.js, connected and with a store
    that answers. [addRunningBot] followed by [removeRunningBot] of the same
    identity gives back the store as it was, and so does [addPendingSession]
    followed by [removePendingSession], when the identity or the identifier
    was not stored before; when the identity was, [addRunningBot] throws the
    duplicate key on to its caller, unlike [addToRunningBots] of the scripts,
    and stores nothing. The unique index on [runningbots.jid], which both
    scripts and src/setup.js create, is taken to be there. *)
Theorem DatabaseManager_round_trips m w :
  DatabaseManager.connected m = true →
  faults w = [] →
  (∀ jid sid,
     existsb (by_jid jid) (runningbots w) = false →
     exec (DatabaseManager.removeRunningBot m jid)
       (exec (DatabaseManager.addRunningBot m jid sid) w) = w)
  ∧ (∀ jid sid,
       existsb (by_jid jid) (runningbots w) = true →
       DatabaseManager.addRunningBot m jid sid w = (Throw DuplicateKey, w)
       ∧ addToRunningBots jid sid w = (Ok tt, w))
  ∧ (∀ oid sid phone,
       existsb (by__id (ObjectId oid)) (wasessions w) = false →
       existsb (by_sessionId sid) (wasessions w) = false →
       exec (DatabaseManager.removePendingSession m sid)
         (exec (DatabaseManager.addPendingSession m oid sid phone) w) = w).
Proof.
  intros Hm Hf.
  unfold exec, DatabaseManager.removeRunningBot, DatabaseManager.addRunningBot,
    DatabaseManager.removePendingSession, DatabaseManager.addPendingSession,
    DatabaseManager.collection, addToRunningBots, try_catch.
  rewrite Hm.
  unfold runningbots_insertOne, runningbots_deleteOne, wasessions_insertOne,
    wasessions_deleteOne, modify, db.
  split; [|split].
  - intros jid sid Hnew. rewrite Hf. simpl. rewrite Hnew. simpl. rewrite Hf.
    simpl. unfold set_runningbots. simpl.
    rewrite delete_first_snoc; [by destruct w|done|].
    by apply bool_decide_eq_true_2.
  - intros jid sid Hold. rewrite Hf. simpl. by rewrite Hold.
  - intros oid sid phone Hid Hsid. rewrite Hf. simpl. rewrite Hid, Hsid.
    rewrite andb_false_r. simpl. rewrite Hf. simpl.
    unfold set_wasessions. simpl.
    rewrite delete_first_snoc; [by destruct w|done|].
    by apply bool_decide_eq_true_2.
Qed.

Lemma DatabaseManager_round_trips_witness :
  exec (DatabaseManager.removeRunningBot {| DatabaseManager.connected := true |}
          (Example.account "01"))
    (exec (DatabaseManager.addRunningBot {| DatabaseManager.connected := true |}
             (Example.account "01") "s1") Example.queue16)
  = Example.queue16.
Proof.
  destruct (DatabaseManager_round_trips {| DatabaseManager.connected := true |}
              Example.queue16 eq_refl eq_refl) as (H & _ & _).
  by apply H.
Defined.

(** X23. A [DatabaseManager] whose [connect] met a store that does not
    answer: [connect] returns [false] and does not throw, [this.db] stays
    [null], and from then on every method throws before it reaches the store,
    whatever the store would have answered; nothing is stored. *)
Theorem failed_connect_disables_the_manager w later :
  faults w = true :: later →
  ∃ m, DatabaseManager.connect DatabaseManager.new w
       = (Ok (false, m), set_faults later w)
     ∧ ∀ w' jid sid phone number oid reason indexes,
         DatabaseManager.addPendingSession m oid sid phone w' = (Throw TypeError, w')
         ∧ DatabaseManager.getPendingSessions m w' = (Throw TypeError, w')
         ∧ DatabaseManager.removePendingSession m sid w' = (Throw TypeError, w')
         ∧ DatabaseManager.isJidValid m jid w' = (Throw TypeError, w')
         ∧ DatabaseManager.addValidJid m indexes jid w' = (Throw TypeError, w')
         ∧ DatabaseManager.addExpiredJid m number reason w' = (Throw TypeError, w')
         ∧ DatabaseManager.addRunningBot m jid sid w' = (Throw TypeError, w')
         ∧ DatabaseManager.removeRunningBot m jid w' = (Throw TypeError, w')
         ∧ DatabaseManager.getRunningBotsCount m w' = (Throw TypeError, w')
         ∧ DatabaseManager.getRunningBots m w' = (Throw TypeError, w').
Proof.
  intros Hf. exists DatabaseManager.new. split.
  - unfold DatabaseManager.connect, try_catch, bind, db. by rewrite Hf.
  - intros. by repeat split.
Qed.

Lemma failed_connect_disables_the_manager_witness :
  ∃ m, DatabaseManager.connect DatabaseManager.new Example.full_then_outage
       = (Ok (false, m), set_faults [true] Example.full_then_outage)
     ∧ DatabaseManager.getRunningBotsCount m Example.full
       = (Throw TypeError, Example.full).
Proof.
  destruct (failed_connect_disables_the_manager Example.full_then_outage [true]
              eq_refl) as (m & Hc & H).
  exists m. split; [exact Hc|].
  apply (H Example.full "" "" JUndefined "" "" None []).
Defined.

(** ** The start of one script on the documents of the other *)

Lemma add_subscription000_stored others jid w w1 :
  faults w = [] →
  add_subscription000 others (Some jid) w = (Ok (Json 200 "Subscription added"), w1) →
  w1 = set_wavalidjid (λ l, l ++ [{| f_Jid := Some jid; f_jid := None |}]) w.
Proof.
  intros Hf. unfold add_subscription000, try_catch, bind, wavalidjid_insertOne.
  simpl. destruct (nonempty jid); simpl; [|done].
  rewrite db_answers by done.
  match goal with |- context [if ?c then _ else _] => destruct c end; simpl; [done|].
  by intros [= <-].
Qed.

(** X24. Two subscriptions added through part_000 keep part_001 from
    starting. Their documents have [Jid] and no [jid]; the unique index on
    [jid] that [initMongoDB] of part_001 asks for counts both as [null] and is
    refused, [initMongoDB] answers [false] and [startApplication] exits with
    code 1, although the store answers every call. *)
Theorem subscriptions_of_part000_stop_part001 others w jid1 jid2 w1 w2 :
  faults w = [] →
  rows_unique w →
  add_subscription000 others (Some jid1) w = (Ok (Json 200 "Subscription added"), w1) →
  add_subscription000 others (Some jid2) w1 = (Ok (Json 200 "Subscription added"), w2) →
  startApplication f_jid w2 = (Ok (Exited 1), w2).
Proof.
  intros Hf Hr H1 H2.
  apply add_subscription000_stored in H1 as ->; [|done].
  apply add_subscription000_stored in H2 as ->; [|done].
  unfold startApplication, initMongoDB, try_catch, bind, createIndex_jid,
    createIndex_valid, db. simpl. rewrite Hf. simpl.
  rewrite bool_decide_eq_true_2 by done. simpl. rewrite Hf. simpl.
  rewrite bool_decide_eq_false_2; [by rewrite Hf|].
  rewrite !fmap_app. simpl. intros Hnd.
  apply NoDup_app in Hnd as (_ & Hnd & _).
  apply (Hnd None); [|by left].
  apply elem_of_app. right. by left.
Qed.

Lemma subscriptions_of_part000_stop_part001_witness :
  startApplication f_jid
    (exec (add_subscription000 [] (Some "254700000002@s.whatsapp.net"))
       (exec (add_subscription000 [] (Some "254700000001@s.whatsapp.net"))
          Example.empty_store))
  = (Ok (Exited 1),
     exec (add_subscription000 [] (Some "254700000002@s.whatsapp.net"))
       (exec (add_subscription000 [] (Some "254700000001@s.whatsapp.net"))
          Example.empty_store)).
Proof.
  apply (subscriptions_of_part000_stop_part001 []
           Example.empty_store "254700000001@s.whatsapp.net"
           "254700000002@s.whatsapp.net"
           (exec (add_subscription000 [] (Some "254700000001@s.whatsapp.net"))
              Example.empty_store)).
  - reflexivity.
  - apply NoDup_nil_2.
  - reflexivity.
  - reflexivity.
Defined.
